(** * issuing-treasury: the Stripe adapter functions of the expense-management app

    A shallow embedding of the Stripe helper module of [src/utils] (the
    funds-flow aggregation of [getBalanceTransactions], the spend total of
    [getCardDetails], [getBankTransferType], [createFundingInstructions]
    and the helpers that pass a Stripe object along), of
    [src/utils/stripe-authentication.ts] ([getStripeSecretKey],
    [getStripePublishableKey]) and of the country field of
    [src/pages/auth/register.tsx].

    Conventions of the embedding:
    - a JavaScript [number] is an IEEE 754 binary64 value, [spec_float] at
      precision 53 and maximal exponent 1024, with the standard library's
      executable operations; NaN carries no payload;
    - a [Date] is its time value, an integer count of milliseconds since the
      epoch, or an Invalid Date; a time value is at most 8.64e15 in absolute
      value, and date-fns throws when it formats an Invalid Date;
    - the local time zone of the process is a [Zone]: the offset of local
      time from UTC at each time, and the offset with which a local time
      is read back, as they change with daylight saving;
    - a JavaScript object used as a dictionary is a [gmap] over strings;
    - a thrown exception is the [Throw] outcome of a computation. *)

From Stdlib Require Import ZArith Ascii String Floats.SpecFloat.
From stdpp Require Import gmap strings list fin_maps.

Local Open Scope string_scope.
Local Open Scope list_scope.
Local Open Scope Z_scope.

(** ** JavaScript numbers *)

Module JS.

Definition number := spec_float.

Definition prec : Z := 53.
Definition emax : Z := 1024.

(** The number denoted by an integer literal. *)
Definition of_Z (z : Z) : number := binary_normalize prec emax z 0 false.

Definition add (x y : number) : number := SFadd prec emax x y.
Definition div (x y : number) : number := SFdiv prec emax x y.
(** [Math.abs] *)
Definition Math_abs (x : number) : number := SFabs x.
(** [x > y] *)
Definition gt (x y : number) : bool := SFltb y x.

Definition zero : number := S754_zero false.

(** A number that is neither a negative zero nor of negative sign: what a
    sum of absolute values can be (NaN included). *)
Definition nonneg (x : number) : Prop :=
  match x with
  | S754_zero s | S754_infinity s | S754_finite s _ _ => s = false
  | S754_nan => True
  end.

(** [x] is finite and its exact value is the rational [p / q]. *)
Definition exactly (x : number) (p q : Z) : Prop :=
  0 < q /\
  match x with
  | S754_zero _ => p = 0
  | S754_finite s m e =>
      let n := if s then Z.neg m else Z.pos m in
      if 0 <=? e then n * 2 ^ e * q = p else n * q = p * 2 ^ (- e)
  | _ => False
  end.

(** ** Outcomes of a computation that may throw *)

Inductive outcome (A : Type) : Type :=
  | Return (a : A)
  | Throw (message : string).
Arguments Return {A} a.
Arguments Throw {A} message.

Definition bind {A B} (c : outcome A) (k : A -> outcome B) : outcome B :=
  match c with
  | Return a => k a
  | Throw e => Throw e
  end.

(** [array.map(f)] where [f] may throw: the first exception escapes. *)
Fixpoint Array_map {A B} (f : A -> outcome B) (array : list A)
  : outcome (list B) :=
  match array with
  | [] => Return []
  | x :: rest =>
      bind (f x) (fun y => bind (Array_map f rest) (fun ys => Return (y :: ys)))
  end.

(** [Array.from({ length }, (_, index) => f(index))] *)
Definition Array_from {B} (length : Z) (f : Z -> outcome B)
  : outcome (list B) :=
  Array_map f (seqZ 0 length).

(** [array.forEach(f)] where [f] changes the objects [state] and may
    throw: an exception escapes, and ends the loop. *)
Fixpoint Array_forEach {A S} (f : S -> A -> outcome S) (array : list A)
    (state : S) : outcome S :=
  match array with
  | [] => Return state
  | x :: rest => bind (f state x) (Array_forEach f rest)
  end.

End JS.

Export JS.

(** ** Dates, and date-fns *)

Module DateFns.

Definition msPerDay : Z := 86400000.

(** The time values of a [Date] reach 100 000 000 days on either side of
    the epoch. *)
Definition maxTime : Z := 8640000000000000.

Definition validTime (time : Z) : Prop := - maxTime <= time <= maxTime.

(** A [Date] object: its time value, or [None] for the NaN of an Invalid
    Date. *)
Definition Date : Type := option Z.

(** [new Date(value)] keeps a value in range and makes an Invalid Date of
    any other: [TimeClip], of ECMAScript. *)
Definition TimeClip (time : Z) : Date :=
  if (- maxTime <=? time) && (time <=? maxTime) then Some time else None.

(** The time zone of the process, in milliseconds: [offsetAt time] is the
    offset of local time from UTC at [time], and [offsetOfLocal local] the
    offset with which the local time [local] is read back
    ([LocalTZA(t, true)] and [LocalTZA(t, false)], of ECMAScript). *)
Record Zone : Type := {
  offsetAt : Z -> Z;
  offsetOfLocal : Z -> Z;
}.

(** A zone that keeps one offset. *)
Definition fixedOffset (tz : Z) : Zone :=
  {| offsetAt := fun _ => tz; offsetOfLocal := fun _ => tz |}.

(** The proleptic Gregorian calendar, on days counted from 1970-01-01.
    Days are located in their 400-year era (146097 days, starting on a
    1st of March), then in their year of the era, counted from March. *)
Definition daysPerEra : Z := 146097.

Definition dayOfEra (days : Z) : Z := (days + 719468) mod daysPerEra.

Definition yearOfEra (doe : Z) : Z :=
  (doe - doe / 1460 + doe / 36524 - doe / 146096) / 365.

Definition dayOfYear (doe : Z) : Z :=
  let yoe := yearOfEra doe in
  doe - (365 * yoe + yoe / 4 - yoe / 100).

(** Month (1..12) and day of the month (1..31) of the [doy]-th day after
    the last day of February. *)
Definition monthAndDayOfYear (doy : Z) : Z * Z :=
  let mp := (5 * doy + 2) / 153 in
  let d := doy - (153 * mp + 2) / 5 + 1 in
  let m := if mp <? 10 then mp + 3 else mp - 9 in
  (m, d).

Definition monthAndDay (days : Z) : Z * Z :=
  monthAndDayOfYear (dayOfYear (dayOfEra days)).

(** The token [MMM]. *)
Definition monthAbbreviation (m : Z) : string :=
  match m with
  | 1 => "Jan" | 2 => "Feb" | 3 => "Mar" | 4 => "Apr"
  | 5 => "May" | 6 => "Jun" | 7 => "Jul" | 8 => "Aug"
  | 9 => "Sep" | 10 => "Oct" | 11 => "Nov" | _ => "Dec"
  end.

Definition digit (n : Z) : Ascii.ascii :=
  Ascii.ascii_of_nat (48 + Z.to_nat (n mod 10)).

(** The token [dd]: the day of the month on two digits. *)
Definition twoDigits (n : Z) : string :=
  String (digit (n / 10)) (String (digit n) EmptyString).

(** A pattern made of the tokens [MMM] and [dd] and of literal characters,
    filled in for a month and a day of the month, in the default (en-US)
    locale. *)
Fixpoint formatTokens (m d : Z) (pattern : string) : string :=
  match pattern with
  | String "M"%char (String "M"%char (String "M"%char rest)) =>
      monthAbbreviation m +:+ formatTokens m d rest
  | String "d"%char (String "d"%char rest) =>
      twoDigits d +:+ formatTokens m d rest
  | String c rest => String c (formatTokens m d rest)
  | EmptyString => EmptyString
  end.

(** The pattern filled in for a calendar day, counted from 1970-01-01. *)
Definition formatDay (days : Z) (pattern : string) : string :=
  let '(m, d) := monthAndDay days in
  formatTokens m d pattern.

Section LocalTime.
Variable zone : Zone.

(** [LocalTime(t)] and [UTC(t)], of ECMAScript. *)
Definition LocalTime (time : Z) : Z := time + offsetAt zone time.

Definition UTC (local : Z) : Z := local - offsetOfLocal zone local.

(** The local calendar day of a time value, counted from 1970-01-01. *)
Definition localDay (time : Z) : Z := LocalTime time / msPerDay.

(** [addDays(date, amount)]: [date] itself for no days; otherwise
    [setDate(getDate() + amount)] on a copy, which is the same local
    wall-clock time [amount] days later, read back into a time value. *)
Definition addDays (date : Date) (amount : Z) : Date :=
  match date with
  | Some time =>
      if amount =? 0 then Some time
      else TimeClip (UTC (LocalTime time + amount * msPerDay))
  | None => None
  end.

(** [format(date, pattern)], which throws on an Invalid Date and reads the
    fields of a date in local time. *)
Definition format (date : Date) (pattern : string) : outcome string :=
  match date with
  | Some time => Return (formatDay (localDay time) pattern)
  | None => Throw "RangeError: Invalid time value"
  end.
End LocalTime.

(** A local time read back into a time value is on its own calendar day,
    also when it is one that the clocks skip: no transition of the zone
    skips from one calendar day into another. *)
Definition keepsDay (zone : Zone) : Prop :=
  forall local, localDay zone (UTC zone local) = local / msPerDay.

(** The local calendar day never goes back as time goes on. *)
Definition dayMonotone (zone : Zone) : Prop :=
  forall time time', time <= time' -> localDay zone time <= localDay zone time'.

(** The local calendar day changes on a whole second. *)
Definition wholeSeconds (zone : Zone) : Prop :=
  forall time, localDay zone (time / 1000 * 1000) = localDay zone time.

End DateFns.

Export DateFns.

(** ** The Stripe objects the helpers read *)

Module BalanceTransaction.
(** [Stripe.BalanceTransaction]: the fields read by the helpers.
    [created] is a Unix timestamp in seconds, [amount] is in the minor
    unit of the currency. *)
Record t : Type := {
  id : string;
  amount : number;
  created : Z;
  type : string;
}.
End BalanceTransaction.

Module Authorization.
(** [Stripe.Issuing.Authorization] *)
Record t : Type := {
  id : string;
  amount : number;
  approved : bool;
}.
End Authorization.

(** [FundsFlowByDate] *)
Record FundsFlowByDate : Type := {
  date : string;
  fundsIn : number;
  fundsOut : number;
}.

(** [BalanceChartData], of [src/types/chart-data] *)
Record BalanceChartData : Type := {
  currency : string;
  balanceTransactionsDates : list string;
  balanceTransactionsFundsIn : list number;
  balanceTransactionsFundsOut : list number;
}.

(** What [getBalanceTransactions] resolves to. *)
Record BalanceTransactions : Type := {
  balanceTransactions : list BalanceTransaction.t;
  balanceFundsFlowChartData : BalanceChartData;
}.

(** [flow.fundsIn += amount] *)
Definition addFundsIn (amount : number) (flow : FundsFlowByDate)
  : FundsFlowByDate :=
  {| date := date flow;
     fundsIn := add (fundsIn flow) amount;
     fundsOut := fundsOut flow |}.

(** [flow.fundsOut += amount] *)
Definition addFundsOut (amount : number) (flow : FundsFlowByDate)
  : FundsFlowByDate :=
  {| date := date flow;
     fundsIn := fundsIn flow;
     fundsOut := add (fundsOut flow) amount |}.

Definition NUMBER_OF_DAYS : Z := 10.
Definition DATE_FORMAT : string := "MMM dd".

(** ** The funds-flow aggregation of [getBalanceTransactions] *)

Section FundsFlow.
Variable zone : Zone.

(** [Array.from({ length: NUMBER_OF_DAYS }, (_, index) => ...)] *)
Definition datesArray (endDate : Date) : outcome (list string) :=
  Array_from NUMBER_OF_DAYS
    (fun index => let date := addDays zone endDate (- index) in
                  format zone date DATE_FORMAT).

(** [datesArray.reduce(..., {})] *)
Definition zeroFundsFlow (datesArray : list string)
  : gmap string FundsFlowByDate :=
  foldl (fun dates formattedDate =>
           <[formattedDate :=
               {| date := formattedDate; fundsIn := zero; fundsOut := zero |}]>
             dates)
        ∅ datesArray.

Definition isHoldOrRelease (type : string) : bool :=
  String.eqb type "issuing_authorization_release"
  || String.eqb type "issuing_authorization_hold".

(** The callback of [balanceTransactions.data.forEach], on the two
    objects it mutates: [fundsFlowByDate] and [transactionList]. The date
    is formatted first, whatever the type of the transaction. *)
Definition forEachTransaction
    (state : gmap string FundsFlowByDate * list BalanceTransaction.t)
    (transaction : BalanceTransaction.t)
  : outcome (gmap string FundsFlowByDate * list BalanceTransaction.t) :=
  let '(fundsFlowByDate, transactionList) := state in
  let date := TimeClip (BalanceTransaction.created transaction * 1000) in
  bind (format zone date DATE_FORMAT) (fun formattedDate =>
  let amount :=
    div (Math_abs (BalanceTransaction.amount transaction)) (of_Z 100) in
  let type := BalanceTransaction.type transaction in
  if negb (isHoldOrRelease type) then
    let fundsFlowByDate :=
      match fundsFlowByDate !! formattedDate with
      | Some flow =>
          if gt (BalanceTransaction.amount transaction) (of_Z 0) then
            <[formattedDate := addFundsIn amount flow]> fundsFlowByDate
          else
            <[formattedDate := addFundsOut amount flow]> fundsFlowByDate
      | None => fundsFlowByDate
      end in
    Return (fundsFlowByDate, transactionList ++ [transaction])
  else
    Return (fundsFlowByDate, transactionList)).

(** [fundsFlowByDate[formattedDate].field]: reading a field of
    [undefined] throws a TypeError. *)
Definition readFlow {A} (field : FundsFlowByDate -> A)
    (fundsFlowByDate : gmap string FundsFlowByDate) (formattedDate : string)
  : outcome A :=
  match fundsFlowByDate !! formattedDate with
  | Some flow => Return (field flow)
  | None => Throw "TypeError: Cannot read properties of undefined"
  end.

(** The body of [getBalanceTransactions] once the listing has resolved to
    [data]; [endDate] is the date read off the clock at its start. *)
Definition balanceFundsFlow (endDate : Date)
    (data : list BalanceTransaction.t) (currency : string)
  : outcome BalanceTransactions :=
  bind (datesArray endDate) (fun datesArray =>
  let fundsFlowByDate := zeroFundsFlow datesArray in
  let transactionList := [] in
  bind (Array_forEach forEachTransaction data
          (fundsFlowByDate, transactionList))
    (fun '(fundsFlowByDate, transactionList) =>
  bind (Array_map (readFlow fundsIn fundsFlowByDate) datesArray)
    (fun fundsInArray =>
  bind (Array_map (readFlow fundsOut fundsFlowByDate) datesArray)
    (fun fundsOutArray =>
  (* Reverse the arrays *)
  let datesArray := reverse datesArray in
  let fundsInArray := reverse fundsInArray in
  let fundsOutArray := reverse fundsOutArray in
  let balanceTransactionsChart :=
    {| currency := currency;
       balanceTransactionsDates := datesArray;
       balanceTransactionsFundsIn := fundsInArray;
       balanceTransactionsFundsOut := fundsOutArray |} in
  Return {| balanceTransactions := transactionList;
            balanceFundsFlowChartData := balanceTransactionsChart |})))).

(** The objects [fundsFlowByDate] and [transactionList] once the
    [forEach] has run over [data]. *)
Definition tallied (endDate : Date) (data : list BalanceTransaction.t)
  : outcome (gmap string FundsFlowByDate * list BalanceTransaction.t) :=
  bind (datesArray endDate) (fun datesArray =>
  Array_forEach forEachTransaction data (zeroFundsFlow datesArray, [])).

(** The dates of the window that ends at the time [endDate] are all
    valid. *)
Definition validWindow (endDate : Z) : Prop :=
  validTime endDate
  /\ forall index, 0 <= index < NUMBER_OF_DAYS ->
                   is_Some (addDays zone (Some endDate) (- index)).

(** The date of a transaction is valid. *)
Definition validCreated (transaction : BalanceTransaction.t) : Prop :=
  validTime (BalanceTransaction.created transaction * 1000).

(** The label of the local day of a transaction: the key under which the
    callback looks it up, when its date is valid. *)
Definition formattedDate (transaction : BalanceTransaction.t) : string :=
  formatDay (localDay zone (BalanceTransaction.created transaction * 1000))
            DATE_FORMAT.

(** What the callback makes of [fundsFlowByDate] for a transaction of that
    label. *)
Definition tally (fundsFlowByDate : gmap string FundsFlowByDate)
    (transaction : BalanceTransaction.t) : gmap string FundsFlowByDate :=
  if isHoldOrRelease (BalanceTransaction.type transaction) then
    fundsFlowByDate
  else
    match fundsFlowByDate !! formattedDate transaction with
    | Some flow =>
        let amount :=
          div (Math_abs (BalanceTransaction.amount transaction)) (of_Z 100) in
        if gt (BalanceTransaction.amount transaction) (of_Z 0)
        then <[formattedDate transaction := addFundsIn amount flow]>
               fundsFlowByDate
        else <[formattedDate transaction := addFundsOut amount flow]>
               fundsFlowByDate
    | None => fundsFlowByDate
    end.

(** The transactions that are neither holds nor releases, in their order. *)
Definition settledOnly (data : list BalanceTransaction.t)
  : list BalanceTransaction.t :=
  filter (fun t => isHoldOrRelease (BalanceTransaction.type t) = false) data.

(** No amount of a bucket is negative, or a negative zero. *)
Definition nonnegFlows (fundsFlowByDate : gmap string FundsFlowByDate)
  : Prop :=
  map_Forall (fun _ flow => nonneg (fundsIn flow) /\ nonneg (fundsOut flow))
             fundsFlowByDate.
End FundsFlow.

(** The labels of the ten days that end on the day [today], newest
    first. *)
Definition dayLabels (today : Z) : list string :=
  (fun index => formatDay (today - index) DATE_FORMAT)
    <$> seqZ 0 NUMBER_OF_DAYS.

(** The label of the [i]-th of these days, oldest first. *)
Definition windowLabel (today : Z) (i : nat) : string :=
  formatDay (today - 9 + Z.of_nat i) DATE_FORMAT.

(** A field of the buckets read day by day, oldest first, as the returned
    series are. *)
Definition series (field : FundsFlowByDate -> number) (today : Z)
    (fundsFlowByDate : gmap string FundsFlowByDate) : list number :=
  reverse ((fun label => from_option field zero (fundsFlowByDate !! label))
             <$> dayLabels today).

(** ** The spend total of [getCardDetails] *)

(** The callback of [card_authorizations.data.forEach], on the variable
    [current_spend] it assigns. [approved] is a boolean, on which
    [== true] is the identity. *)
Definition forEachAuthorization (current_spend : number)
    (authorization : Authorization.t) : number :=
  if Authorization.approved authorization then
    add current_spend (Authorization.amount authorization)
  else current_spend.

(** The sum of a list of numbers, added from left to right from 0. *)
Definition sum (amounts : list number) : number := foldl add zero amounts.

(** The approved ones among some authorizations, in their order. *)
Definition approvedOnly (authorizations : list Authorization.t)
  : list Authorization.t :=
  filter (fun authorization => Authorization.approved authorization = true)
         authorizations.

(** ** [getBankTransferType] *)

Definition getBankTransferType (country : string) : string :=
  if String.eqb country "GB" then "gb_bank_transfer"
  else if String.eqb country "US" then "us_bank_transfer"
  else "eu_bank_transfer".


(** ** The helpers, with the clock and the Stripe API they call *)

Module ListParams.
(** The parameters of [stripe.balanceTransactions.list]; the bounds of
    [created] are numbers, NaN ([None]) when read off an Invalid Date. *)
Record balanceTransactions : Type := {
  created_gte : option Z;
  created_lte : option Z;
  limit : Z;
}.
(** The parameters of [stripe.issuing.authorizations.list]. *)
Record authorizations : Type := {
  card : string;
  authorizations_limit : Z;
}.
End ListParams.

(** [Math.floor(date.getTime() / 1000)] *)
Definition getTimeInSeconds (date : Date) : option Z :=
  (fun time => time / 1000) <$> date.

Section Helpers.
Variable zone : Zone.

(** [Platform] of [./platform] and [Stripe.Issuing.Card] are only passed
    along; [World] is everything outside of the process that a request
    may read or change. *)
Context {Platform Card World : Type}.

(** [StripeAccount], of [./stripe-account] *)
Record StripeAccount : Type := {
  accountId : string;
  platform : Platform;
}.

(** An awaited computation: it runs on the world, and resolves or
    rejects. *)
Definition request (A : Type) : Type := World -> outcome A * World.

Definition resolve {A} (a : A) : request A := fun world => (Return a, world).

Definition settle {A} (result : outcome A) : request A :=
  fun world => (result, world).

Definition await {A B} (c : request A) (k : A -> request B) : request B :=
  fun world =>
    match c world with
    | (Return a, world) => k a world
    | (Throw e, world) => (Throw e, world)
    end.

(** [new Date()] *)
Variable new_Date : request Date.
(** [stripeClient(platform).balanceTransactions.list(params,
    { stripeAccount })], resolving to the [data] of the page. *)
Variable balanceTransactions_list :
  Platform -> ListParams.balanceTransactions -> string ->
  request (list BalanceTransaction.t).
(** [stripeClient(platform).issuing.authorizations.list] *)
Variable issuing_authorizations_list :
  Platform -> ListParams.authorizations -> string ->
  request (list Authorization.t).
(** [stripeClient(platform).issuing.cards.retrieve] *)
Variable issuing_cards_retrieve :
  Platform -> string -> list string -> string -> request Card.

(** What [getCardDetails] resolves to. *)
Record CardTransactions : Type := {
  card_authorizations : list Authorization.t;
  current_spend : number;
  card_details : Card;
}.

Definition getCardDetails (stripeAccount : StripeAccount) (cardId : string)
  : request CardTransactions :=
  let accountId := accountId stripeAccount in
  let platform := platform stripeAccount in
  (* Retrieve last 10 authorizations *)
  await (issuing_authorizations_list platform
           {| ListParams.card := cardId;
              ListParams.authorizations_limit := 10 |}
           accountId)
    (fun card_authorizations =>
  (* Calculate current spend *)
  let current_spend := zero in
  let current_spend :=
    foldl forEachAuthorization current_spend card_authorizations in
  await (issuing_cards_retrieve platform cardId ["cardholder"] accountId)
    (fun card_details =>
  resolve {| card_authorizations := card_authorizations;
             current_spend := current_spend;
             card_details := card_details |})).

Definition getBalanceTransactions (stripeAccount : StripeAccount)
    (currency : string) : request BalanceTransactions :=
  let accountId := accountId stripeAccount in
  let platform := platform stripeAccount in
  await new_Date (fun endDate =>
  let startDate := addDays zone endDate (- NUMBER_OF_DAYS + 1) in
  await (balanceTransactions_list platform
           {| ListParams.created_gte := getTimeInSeconds startDate;
              ListParams.created_lte := getTimeInSeconds endDate;
              ListParams.limit := 100 |}
           accountId)
    (fun data =>
  settle (balanceFundsFlow zone endDate data currency))).
End Helpers.

(** ** [getStripeSecretKey] *)

Section StripeAuthentication.
(** The values a [platform] argument can take at run time, compared by
    [===], with the three members of the enumeration [Platform] and the
    string conversion of a template literal. *)
Context {Platform : Type} `{EqDecision Platform}.
Variables Platform_UK Platform_EU Platform_US : Platform.
Variable toString : Platform -> string.

(** [key || null]: [undefined] and the empty string are falsy. *)
Definition orNull (key : option string) : option string :=
  match key with
  | Some "" | None => None
  | Some key => Some key
  end.

Definition getStripeSecretKey (process_env : gmap string string)
    (platform : Platform) : outcome (option string) :=
  bind
    (if decide (platform = Platform_UK) then
       Return (process_env !! "STRIPE_SECRET_KEY_UK")
     else if decide (platform = Platform_EU) then
       Return (process_env !! "STRIPE_SECRET_KEY_EU")
     else if decide (platform = Platform_US) then
       Return (process_env !! "STRIPE_SECRET_KEY_US")
     else Throw ("Unsupported platform: " +:+ toString platform))
    (fun key => Return (orNull key)).
End StripeAuthentication.

(** ** [getStripePublishableKey] *)

Section StripePublishable.
Context {Platform : Type} `{EqDecision Platform}.
Variables Platform_UK Platform_EU Platform_US : Platform.
Variable toString : Platform -> string.

Definition getStripePublishableKey (process_env : gmap string string)
    (platform : Platform) : outcome (option string) :=
  bind
    (if decide (platform = Platform_UK) then
       Return (process_env !! "NEXT_PUBLIC_STRIPE_PUBLISHABLE_KEY_UK")
     else if decide (platform = Platform_EU) then
       Return (process_env !! "NEXT_PUBLIC_STRIPE_PUBLISHABLE_KEY_EU")
     else if decide (platform = Platform_US) then
       Return (process_env !! "NEXT_PUBLIC_STRIPE_PUBLISHABLE_KEY_US")
     else Throw ("Unsupported platform: " +:+ toString platform))
    (fun key => Return (orNull key)).
End StripePublishable.

(** ** The helpers that only pass a Stripe object along *)

Section PassAlong.
(** The objects are opaque to the helpers. *)
Context {Platform World : Type}.
Context {Cardholders Cards Authorizations AuthorizationObject Balance : Type}.

(** [stripe.issuing.cardholders.list({ limit }, { stripeAccount })] *)
Variable issuing_cardholders_list :
  Platform -> Z -> string -> @request World Cardholders.
(** [stripe.issuing.cards.list({ limit }, { stripeAccount })] *)
Variable issuing_cards_list :
  Platform -> Z -> string -> @request World Cards.
(** [stripe.issuing.authorizations.list({ limit }, { stripeAccount })] *)
Variable issuing_authorizations_page :
  Platform -> Z -> string -> @request World Authorizations.
(** [stripe.issuing.authorizations.retrieve(id, { stripeAccount })] *)
Variable issuing_authorizations_retrieve :
  Platform -> string -> string -> @request World AuthorizationObject.
(** [stripe.balance.retrieve({ stripeAccount })] *)
Variable balance_retrieve : Platform -> string -> @request World Balance.

(** What each helper resolves to: the object, under its name. *)
Record CardholdersResult : Type := { cardholders : Cardholders }.
Record CardsResult : Type := { cards : Cards }.
Record AuthorizationsResult : Type := { authorizations : Authorizations }.
Record AuthorizationResult : Type := { authorization : AuthorizationObject }.
Record BalanceResult : Type := { balance : Balance }.

Definition getCardholders (stripeAccount : StripeAccount)
  : @request World CardholdersResult :=
  let accountId := accountId stripeAccount in
  let platform := platform stripeAccount in
  await (issuing_cardholders_list platform 100 accountId)
    (fun cardholders => resolve {| cardholders := cardholders |}).

Definition getCards (stripeAccount : StripeAccount)
  : @request World CardsResult :=
  let accountId := accountId stripeAccount in
  let platform := platform stripeAccount in
  await (issuing_cards_list platform 100 accountId)
    (fun cards => resolve {| cards := cards |}).

Definition getAuthorizations (stripeAccount : StripeAccount)
  : @request World AuthorizationsResult :=
  let accountId := accountId stripeAccount in
  let platform := platform stripeAccount in
  await (issuing_authorizations_page platform 10 accountId)
    (fun authorizations => resolve {| authorizations := authorizations |}).

Definition getAuthorizationDetails (stripeAccount : StripeAccount)
    (authorizationId : string) : @request World AuthorizationResult :=
  let accountId := accountId stripeAccount in
  let platform := platform stripeAccount in
  await (issuing_authorizations_retrieve platform authorizationId accountId)
    (fun authorization => resolve {| authorization := authorization |}).

Definition getBalance (stripeAccount : StripeAccount)
  : @request World BalanceResult :=
  let accountId := accountId stripeAccount in
  let platform := platform stripeAccount in
  await (balance_retrieve platform accountId)
    (fun balance => resolve {| balance := balance |}).
End PassAlong.

(** ** [createFundingInstructions] *)

(** The second argument of [fetch]; [headers] is the object literal and
    [body] the [URLSearchParams], both as their entries in order. *)
Record RequestInit : Type := {
  method : string;
  headers : list (string * string);
  body : list (string * string);
}.

(** [prefix + value] where [value] is a string or [null]. *)
Definition plusNullable (prefix : string) (value : option string) : string :=
  match value with
  | Some value => prefix +:+ value
  | None => prefix +:+ "null"
  end.

Section FundingInstructions.
Context {Platform : Type} `{EqDecision Platform}.
Variables Platform_UK Platform_EU Platform_US : Platform.
Variable toString : Platform -> string.
(** [process.env] *)
Variable process_env : gmap string string.
(** The response of [fetch] and the value its [json()] resolves to are
    opaque. *)
Context {World Response Json : Type}.
Variable fetch : string -> RequestInit -> @request World Response.
Variable Response_json : Response -> @request World Json.

Definition createFundingInstructions (stripeAccount : StripeAccount)
    (country currency : string) : @request World Json :=
  let accountId := accountId stripeAccount in
  let platform := platform stripeAccount in
  let bankTransferType := getBankTransferType country in
  let data :=
    [("currency", currency);
     ("funding_type", "bank_transfer");
     ("bank_transfer[type]", bankTransferType)] in
  (* the arguments of [fetch] are evaluated before the call *)
  await (settle (getStripeSecretKey Platform_UK Platform_EU Platform_US
                   toString process_env platform))
    (fun secretKey =>
  await (fetch "https://api.stripe.com/v1/issuing/funding_instructions"
           {| method := "POST";
              headers :=
                [("Stripe-Account", accountId);
                 ("content-type", "application/x-www-form-urlencoded");
                 ("Authorization", plusNullable "Bearer " secretKey)];
              body := data |})
    (fun response =>
  await (Response_json response) (fun responseBody =>
  resolve responseBody))).
End FundingInstructions.

(** ** The registration page *)

Module Register.
(** A [MenuItem] of the country field. *)
Record MenuItem : Type := {
  value : string;
  disabled : bool;
  children : string;
}.

(** The items of the country field, as [Page] renders them. *)
Definition countryMenu (enableUS enableUK enableEU : bool) : list MenuItem :=
  [ {| value := "US"; disabled := negb enableUS; children := "United States" |};
    {| value := "AT"; disabled := negb enableEU; children := "Austria" |};
    {| value := "BE"; disabled := negb enableEU; children := "Belgium" |};
    {| value := "HR"; disabled := negb enableEU; children := "Croatia" |};
    {| value := "CY"; disabled := negb enableEU; children := "Cyprus" |};
    {| value := "EE"; disabled := negb enableEU; children := "Estonia" |};
    {| value := "FI"; disabled := negb enableEU; children := "Finland" |};
    {| value := "FR"; disabled := negb enableEU; children := "France" |};
    {| value := "DE"; disabled := negb enableEU; children := "Germany" |};
    {| value := "GR"; disabled := negb enableEU; children := "Greece" |};
    {| value := "IE"; disabled := negb enableEU; children := "Ireland" |};
    {| value := "IT"; disabled := negb enableEU; children := "Italy" |};
    {| value := "LV"; disabled := negb enableEU; children := "Latvia" |};
    {| value := "LT"; disabled := negb enableEU; children := "Lithuania" |};
    {| value := "LU"; disabled := negb enableEU; children := "Luxembourg" |};
    {| value := "MT"; disabled := negb enableEU; children := "Malta" |};
    {| value := "NL"; disabled := negb enableEU; children := "Netherlands" |};
    {| value := "PT"; disabled := negb enableEU; children := "Portugal" |};
    {| value := "SK"; disabled := negb enableEU; children := "Slovakia" |};
    {| value := "SI"; disabled := negb enableEU; children := "Slovenia" |};
    {| value := "ES"; disabled := negb enableEU; children := "Spain" |};
    {| value := "GB"; disabled := negb enableUK; children := "United Kingdom" |} ].

(** [initialValues.country] *)
Definition initialCountry : string := "US".

(** [disabled] of the submit button. *)
Definition submitDisabled (dirty isContinuingSuccessfully isValid : bool)
  : bool :=
  negb dirty || isContinuingSuccessfully || negb isValid.
End Register.

(** ** The totals of a day, in words *)

Section DailyTotals.
Variable zone : Zone.

(** [Math.abs(transaction.amount) / 100] *)
Definition inMajorUnits (transaction : BalanceTransaction.t) : number :=
  div (Math_abs (BalanceTransaction.amount transaction)) (of_Z 100).

(** What the callback does to the bucket of a transaction it counts. *)
Definition tallyFlow (transaction : BalanceTransaction.t)
    (flow : FundsFlowByDate) : FundsFlowByDate :=
  if gt (BalanceTransaction.amount transaction) (of_Z 0)
  then addFundsIn (inMajorUnits transaction) flow
  else addFundsOut (inMajorUnits transaction) flow.

(** A transaction that is neither a hold nor a release, whose formatted
    date is [label]. *)
Definition settledOn (label : string) (transaction : BalanceTransaction.t)
  : bool :=
  negb (isHoldOrRelease (BalanceTransaction.type transaction))
  && String.eqb (formattedDate zone transaction) label.

(** Such a transaction whose amount is greater than 0. *)
Definition countsIn (label : string) (transaction : BalanceTransaction.t)
  : bool :=
  settledOn label transaction
  && gt (BalanceTransaction.amount transaction) (of_Z 0).

(** Such a transaction whose amount is not greater than 0. *)
Definition countsOut (label : string) (transaction : BalanceTransaction.t)
  : bool :=
  settledOn label transaction
  && negb (gt (BalanceTransaction.amount transaction) (of_Z 0)).
End DailyTotals.

(** ** Integers as numbers *)

(** [n * 2 ^ k], a positive number for [0 <= k]. *)
Definition shiftPos (n : positive) (k : Z) : positive :=
  Z.to_pos (Z.pos n * 2 ^ k).

(** The total of some integers. *)
Definition totalOf (amounts : list Z) : Z := foldr Z.add 0 amounts.


(** ** Sample data *)

Module Sample.
(** A process that runs in UTC. *)
Definition utc : Zone := fixedOffset 0.

(** America/New_York around the start of daylight saving time in 2024:
    five hours behind UTC until 2024-03-10T07:00:00Z, when local clocks go
    from 02:00 to 03:00, and four hours behind from then on; a local time
    that the clocks skip is read with the offset of before. *)
Definition newYork : Zone :=
  {| offsetAt := fun time =>
       if time <? 1710054000000 then -18000000 else -14400000;
     offsetOfLocal := fun local =>
       if local <? 1710039600000 then -18000000 else -14400000 |}.

(** 2024-12-31T23:30:00Z *)
Definition endDate : Z := 1735687800000.

(** 2024-03-15T16:00:00Z, which is noon in New York. *)
Definition noonInMarch : Z := 1710518400000.

(** A charge of 10.50 made half an hour before [endDate]. *)
Definition charge : BalanceTransaction.t :=
  {| BalanceTransaction.id := "txn_charge";
     BalanceTransaction.amount := of_Z 1050;
     BalanceTransaction.created := 1735686000;
     BalanceTransaction.type := "charge" |}.

(** A payout of 5.00 made nine days before [endDate]. *)
Definition payout : BalanceTransaction.t :=
  {| BalanceTransaction.id := "txn_payout";
     BalanceTransaction.amount := of_Z (-500);
     BalanceTransaction.created := 1734910200;
     BalanceTransaction.type := "payout" |}.

(** A hold of 7.00 made half an hour before [endDate]. *)
Definition hold : BalanceTransaction.t :=
  {| BalanceTransaction.id := "txn_hold";
     BalanceTransaction.amount := of_Z (-700);
     BalanceTransaction.created := 1735686000;
     BalanceTransaction.type := "issuing_authorization_hold" |}.

(** A hold whose [created] is one second past the last valid date. *)
Definition holdOutOfRange : BalanceTransaction.t :=
  {| BalanceTransaction.id := "txn_hold_out_of_range";
     BalanceTransaction.amount := of_Z (-700);
     BalanceTransaction.created := 8640000000001;
     BalanceTransaction.type := "issuing_authorization_hold" |}.

(** A fee of nothing charged half an hour before [endDate]. *)
Definition freeOfCharge : BalanceTransaction.t :=
  {| BalanceTransaction.id := "txn_fee";
     BalanceTransaction.amount := of_Z 0;
     BalanceTransaction.created := 1735686000;
     BalanceTransaction.type := "stripe_fee" |}.

(** A charge of 10.50 made at 23:30 UTC on 2023-12-31, 366 days before
    [endDate]. *)
Definition chargeOfLastYear : BalanceTransaction.t :=
  {| BalanceTransaction.id := "txn_last_year";
     BalanceTransaction.amount := of_Z 1050;
     BalanceTransaction.created := 1704065400;
     BalanceTransaction.type := "charge" |}.

(** A charge of 10.50 made at noon UTC on 2024-06-15. *)
Definition chargeOfJune : BalanceTransaction.t :=
  {| BalanceTransaction.id := "txn_june";
     BalanceTransaction.amount := of_Z 1050;
     BalanceTransaction.created := 1718452800;
     BalanceTransaction.type := "charge" |}.

(** A charge of 10.50 made at 2024-03-10T04:30:00Z, which is 23:30 on the
    9th of March in New York, half an hour before the day on which
    daylight saving time starts. *)
Definition chargeBeforeDaylightSaving : BalanceTransaction.t :=
  {| BalanceTransaction.id := "txn_march";
     BalanceTransaction.amount := of_Z 1050;
     BalanceTransaction.created := 1710045000;
     BalanceTransaction.type := "charge" |}.

Definition approved (amount : Z) : Authorization.t :=
  {| Authorization.id := "iauth_approved";
     Authorization.amount := of_Z amount;
     Authorization.approved := true |}.

Definition declined (amount : Z) : Authorization.t :=
  {| Authorization.id := "iauth_declined";
     Authorization.amount := of_Z amount;
     Authorization.approved := false |}.

(** A world that counts the requests made to it, in which the clock is
    stopped at [endDate] and Stripe lists the same objects to every
    account. *)
Definition clock : @request nat Date :=
  fun world => (Return (Some endDate), S world).

(** A world that keeps the parameters of the listings asked for, in
    which the clock is stopped at [noonInMarch] and Stripe lists
    [chargeBeforeDaylightSaving]. *)
Definition clockInMarch
  : @request (list ListParams.balanceTransactions) Date :=
  fun asked => (Return (Some noonInMarch), asked).

Definition listInMarch (platform : string)
    (params : ListParams.balanceTransactions) (accountId : string)
  : @request (list ListParams.balanceTransactions)
             (list BalanceTransaction.t) :=
  fun asked => (Return [chargeBeforeDaylightSaving], asked ++ [params]).

Definition listBalanceTransactions (platform : string)
    (params : ListParams.balanceTransactions) (accountId : string)
  : @request nat (list BalanceTransaction.t) :=
  fun world => (Return [charge; hold; payout], S world).

Definition listAuthorizations (platform : string)
    (params : ListParams.authorizations) (accountId : string)
  : @request nat (list Authorization.t) :=
  fun world => (Return [approved 1200; declined 5000; approved 300],
                S world).

Definition retrieveCard (platform cardId : string) (expand : list string)
    (accountId : string) : @request nat string :=
  fun world => (Return cardId, S world).

Definition account (accountId : string) : @StripeAccount string :=
  {| accountId := accountId; platform := "us" |}.
End Sample.

Module Fixture.
(** A world that keeps the requests fetched, in which every response is
    the JSON text of an empty object. *)
Definition fetch (url : string) (init : RequestInit)
  : @request (list (string * RequestInit)) string :=
  fun sent => (Return "{}", sent ++ [(url, init)]).

Definition json (response : string)
  : @request (list (string * RequestInit)) string :=
  fun sent => (Return response, sent).

(** An environment with the secret key of US only; that of EU is empty. *)
Definition process_env : gmap string string :=
  {[ "STRIPE_SECRET_KEY_US" := "sk_test_us";
     "STRIPE_SECRET_KEY_EU" := "";
     "NEXT_PUBLIC_STRIPE_PUBLISHABLE_KEY_US" := "pk_test_us" ]}.

Definition account (accountId platform : string) : @StripeAccount string :=
  {| accountId := accountId; platform := platform |}.

End Fixture.

(** * Properties *)

(** ** The calendar *)

Section Calendar.

Lemma dayOfEra_range days : 0 <= dayOfEra days < daysPerEra.
Proof. apply Z.mod_pos_bound. reflexivity. Qed.

Lemma dayOfEra_add days k :
  dayOfEra (days + k) = (dayOfEra days + k) mod daysPerEra.
Proof. unfold dayOfEra. rewrite Zplus_mod_idemp_l. f_equal. lia. Qed.

Lemma yearOfEra_range doe :
  0 <= doe < daysPerEra -> 0 <= yearOfEra doe <= 399.
Proof.
  unfold yearOfEra, daysPerEra. intros. Z.div_mod_to_equations. lia.
Qed.

Lemma dayOfYear_range doe :
  0 <= doe < daysPerEra -> 0 <= dayOfYear doe <= 365.
Proof.
  unfold dayOfYear, yearOfEra, daysPerEra. intros.
  Z.div_mod_to_equations. lia.
Qed.

(** The first days of two years of an era are neither 1 to 364 days apart
    nor, around the end of the era, 1 to 364 days more than an era apart. *)
Lemma yearStart_gap y y' delta :
  0 <= y <= 399 -> 0 <= y' <= 399 ->
  (365 * y' + y' / 4 - y' / 100) - (365 * y + y / 4 - y / 100) = delta ->
  ~ (1 <= delta <= 364 \/ 1 - daysPerEra <= delta <= 364 - daysPerEra).
Proof. unfold daysPerEra. intros. Z.div_mod_to_equations. lia. Qed.

Lemma dayOfYear_distinct doe k :
  0 <= doe < daysPerEra -> 1 <= k <= 364 ->
  dayOfYear doe <> dayOfYear ((doe + k) mod daysPerEra).
Proof.
  intros Hdoe Hk Heq.
  assert (Hdoe' : 0 <= (doe + k) mod daysPerEra < daysPerEra)
    by (apply Z.mod_pos_bound; reflexivity).
  pose proof (yearOfEra_range _ Hdoe) as Hy.
  pose proof (yearOfEra_range _ Hdoe') as Hy'.
  unfold dayOfYear in Heq.
  set (y := yearOfEra doe) in *.
  set (y' := yearOfEra ((doe + k) mod daysPerEra)) in *.
  apply (yearStart_gap y y' ((doe + k) mod daysPerEra - doe) Hy Hy'); [lia|].
  clearbody y y'. clear Heq. unfold daysPerEra in *.
  Z.div_mod_to_equations. lia.
Qed.

Lemma monthAndDayOfYear_range doy :
  0 <= doy <= 365 ->
  1 <= fst (monthAndDayOfYear doy) <= 12
  /\ 1 <= snd (monthAndDayOfYear doy) <= 31.
Proof.
  unfold monthAndDayOfYear. intros. cbn [fst snd].
  destruct (Z.ltb_spec ((5 * doy + 2) / 153) 10);
    Z.div_mod_to_equations; lia.
Qed.

Lemma monthAndDayOfYear_inj a b :
  0 <= a <= 365 -> 0 <= b <= 365 ->
  monthAndDayOfYear a = monthAndDayOfYear b -> a = b.
Proof.
  unfold monthAndDayOfYear. intros Ha Hb [= Hm Hd].
  destruct (Z.ltb_spec ((5 * a + 2) / 153) 10),
           (Z.ltb_spec ((5 * b + 2) / 153) 10);
    Z.div_mod_to_equations; lia.
Qed.

Lemma monthAndDay_range days :
  1 <= fst (monthAndDay days) <= 12 /\ 1 <= snd (monthAndDay days) <= 31.
Proof.
  apply monthAndDayOfYear_range, dayOfYear_range, dayOfEra_range.
Qed.

(** Two days less than 365 days apart differ in month or day of month. *)
Lemma monthAndDay_distinct days k :
  1 <= k <= 364 -> monthAndDay days <> monthAndDay (days + k).
Proof.
  intros Hk Heq. unfold monthAndDay in Heq. rewrite dayOfEra_add in Heq.
  pose proof (dayOfEra_range days) as Hdoe.
  apply monthAndDayOfYear_inj in Heq.
  - exact (dayOfYear_distinct _ _ Hdoe Hk Heq).
  - by apply dayOfYear_range.
  - apply dayOfYear_range, Z.mod_pos_bound. reflexivity.
Qed.

End Calendar.

(** ** Date labels *)

Section Labels.

Lemma digit_inj a b : digit a = digit b -> a mod 10 = b mod 10.
Proof.
  unfold digit. intros Heq. apply (f_equal nat_of_ascii) in Heq.
  pose proof (Z.mod_pos_bound a 10 eq_refl).
  pose proof (Z.mod_pos_bound b 10 eq_refl).
  rewrite !nat_ascii_embedding in Heq by lia. lia.
Qed.

Lemma twoDigits_inj a b :
  0 <= a < 100 -> 0 <= b < 100 -> twoDigits a = twoDigits b -> a = b.
Proof.
  intros Ha Hb [= Htens Hunits].
  apply digit_inj in Htens, Hunits. Z.div_mod_to_equations. lia.
Qed.

Lemma monthAbbreviation_length m :
  exists a b c,
    monthAbbreviation m = String a (String b (String c EmptyString)).
Proof.
  unfold monthAbbreviation.
  repeat (match goal with |- context [match ?x with _ => _ end] =>
                            destruct x end);
    by do 3 eexists.
Qed.

Lemma monthAbbreviation_inj m m' :
  1 <= m <= 12 -> 1 <= m' <= 12 ->
  monthAbbreviation m = monthAbbreviation m' -> m = m'.
Proof.
  intros Hm Hm'.
  assert (Hcases : forall x, 1 <= x <= 12 ->
            x = 1 \/ x = 2 \/ x = 3 \/ x = 4 \/ x = 5 \/ x = 6 \/ x = 7
            \/ x = 8 \/ x = 9 \/ x = 10 \/ x = 11 \/ x = 12) by lia.
  destruct (Hcases m Hm) as [->|[->|[->|[->|[->|[->|[->|[->|[->|[->|[->| ->]]]]]]]]]]];
    destruct (Hcases m' Hm') as [->|[->|[->|[->|[->|[->|[->|[->|[->|[->|[->| ->]]]]]]]]]]];
    cbn; intros Heq; first [reflexivity | discriminate Heq].
Qed.

(** What [DATE_FORMAT] makes of a day. *)
Lemma formatDay_DATE_FORMAT days :
  formatDay days DATE_FORMAT =
    monthAbbreviation (fst (monthAndDay days))
    +:+ String " " (twoDigits (snd (monthAndDay days))).
Proof.
  unfold formatDay. destruct (monthAndDay days) as [m d].
  cbn [fst snd]. unfold DATE_FORMAT. cbn [formatTokens]. reflexivity.
Qed.

(** The label of a day determines its month and day of the month. *)
Lemma formatDay_inj days days' :
  formatDay days DATE_FORMAT = formatDay days' DATE_FORMAT ->
  monthAndDay days = monthAndDay days'.
Proof.
  rewrite !formatDay_DATE_FORMAT.
  pose proof (monthAndDay_range days) as [Hm Hd].
  pose proof (monthAndDay_range days') as [Hm' Hd'].
  destruct (monthAndDay days) as [m d].
  destruct (monthAndDay days') as [m' d'].
  cbn [fst snd] in *. intros Heq.
  destruct (monthAbbreviation_length m) as (a & b & c & Ha).
  destruct (monthAbbreviation_length m') as (a' & b' & c' & Ha').
  rewrite Ha, Ha' in Heq. cbn in Heq.
  injection Heq as -> -> -> Htens Hunits.
  f_equal.
  - apply monthAbbreviation_inj; [done | done |]. by rewrite Ha, Ha'.
  - apply twoDigits_inj; [lia | lia |]. unfold twoDigits.
    by rewrite Htens, Hunits.
Qed.

(** Two days less than 365 days apart differ in label. *)
Lemma formatDay_distinct days days' :
  1 <= days' - days <= 364 ->
  formatDay days DATE_FORMAT <> formatDay days' DATE_FORMAT.
Proof.
  intros Hdays Heq. apply formatDay_inj in Heq.
  apply (monthAndDay_distinct days (days' - days)); [lia|].
  rewrite Heq. f_equal. lia.
Qed.
End Labels.

(** ** Dates and zones *)

Section Zones.

Lemma TimeClip_valid time : validTime time -> TimeClip time = Some time.
Proof.
  unfold validTime, TimeClip. intros [Hlo Hhi].
  apply Z.leb_le in Hlo, Hhi. by rewrite Hlo, Hhi.
Qed.

Lemma TimeClip_invalid time : ~ validTime time -> TimeClip time = None.
Proof.
  unfold validTime, TimeClip. intros Hinvalid.
  destruct (Z.leb_spec (- maxTime) time); [|done].
  destruct (Z.leb_spec time maxTime); [|done].
  exfalso. apply Hinvalid. lia.
Qed.

Lemma TimeClip_Some time time' :
  TimeClip time = Some time' -> time' = time /\ validTime time.
Proof.
  unfold validTime, TimeClip.
  destruct (Z.leb_spec (- maxTime) time); [|done].
  destruct (Z.leb_spec time maxTime); [|done].
  intros [= <-]. lia.
Qed.

Lemma fixedOffset_keepsDay tz : keepsDay (fixedOffset tz).
Proof.
  intros local. unfold localDay, LocalTime, UTC. cbn. f_equal. lia.
Qed.

Lemma fixedOffset_dayMonotone tz : dayMonotone (fixedOffset tz).
Proof.
  intros time time' Hle. unfold localDay, LocalTime. cbn.
  apply Z.div_le_mono; [done | lia].
Qed.

Lemma fixedOffset_wholeSeconds tz :
  tz mod 1000 = 0 -> wholeSeconds (fixedOffset tz).
Proof.
  intros Htz time. unfold localDay, LocalTime, msPerDay. cbn.
  Z.div_mod_to_equations. lia.
Qed.

Variable zone : Zone.
Hypothesis zone_keepsDay : keepsDay zone.

(** A date [amount] days later is on the local day [amount] days later. *)
Lemma addDays_localDay time amount time' :
  addDays zone (Some time) amount = Some time' ->
  localDay zone time' = localDay zone time + amount.
Proof.
  unfold addDays. destruct (Z.eqb_spec amount 0) as [->|Hne].
  - intros [= <-]. lia.
  - intros [-> _]%TimeClip_Some. rewrite zone_keepsDay.
    unfold localDay. by rewrite Z.div_add.
Qed.

Lemma format_addDays time amount pattern :
  is_Some (addDays zone (Some time) amount) ->
  format zone (addDays zone (Some time) amount) pattern
  = Return (formatDay (localDay zone time + amount) pattern).
Proof.
  intros [time' Htime']. rewrite Htime'. cbn.
  by rewrite (addDays_localDay _ _ _ Htime').
Qed.
End Zones.

Lemma fixedOffset_addDays tz time amount :
  addDays (fixedOffset tz) (Some time) amount
  = if amount =? 0 then Some time else TimeClip (time + amount * msPerDay).
Proof.
  unfold addDays, UTC, LocalTime. cbn.
  destruct (amount =? 0); [done|]. f_equal. lia.
Qed.

(** ** Numbers *)

Section Numbers.

Lemma binary_round_aux_sign sx mx ex lx :
  match binary_round_aux prec emax sx mx ex lx with
  | S754_zero s | S754_infinity s | S754_finite s _ _ => s = sx
  | S754_nan => True
  end.
Proof.
  unfold binary_round_aux.
  destruct (shr_fexp prec emax mx ex lx) as [mrs' e'].
  destruct (shr_fexp prec emax _ e' loc_Exact) as [mrs'' e''].
  destruct (shr_m mrs''); [done | | done].
  by destruct (Z.leb e'' (Z.sub emax prec)).
Qed.

Lemma binary_round_sign sx mx ex :
  match binary_round prec emax sx mx ex with
  | S754_zero s | S754_infinity s | S754_finite s _ _ => s = sx
  | S754_nan => True
  end.
Proof.
  unfold binary_round.
  destruct (shl_align mx ex _) as [mz ez].
  apply binary_round_aux_sign.
Qed.

Lemma add_nonneg x y : nonneg x -> nonneg y -> nonneg (add x y).
Proof.
  destruct x as [sx|sx| |sx mx ex], y as [sy|sy| |sy my ey];
    cbn; intros Hx Hy; subst; try done.
  apply (binary_round_sign false).
Qed.

(** [Math.abs(x) / 100] *)
Lemma div_abs_nonneg x : nonneg (div (Math_abs x) (of_Z 100)).
Proof.
  destruct x as [sx|sx| |sx mx ex]; try done.
  change (of_Z 100) with (S754_finite false 7036874417766400 (-46)).
  unfold div, Math_abs, SFabs, SFdiv.
  destruct (SFdiv_core_binary _ _ _ _ _ _) as [[mz ez] lz].
  apply binary_round_aux_sign.
Qed.

Lemma add_zero_r x : nonneg x -> add x zero = x.
Proof. destruct x as [[]|[]| |[] mx ex]; by cbn. Qed.

Lemma gt_zero s : gt (S754_zero s) (of_Z 0) = false.
Proof. reflexivity. Qed.

Lemma div_abs_zero s : div (Math_abs (S754_zero s)) (of_Z 100) = zero.
Proof. reflexivity. Qed.

End Numbers.

(** ** The buckets *)

Section Outcomes.
Context {A B S : Type}.

Lemma Array_map_Return (f : A -> outcome B) (g : A -> B) (array : list A) :
  (forall x, x ∈ array -> f x = Return (g x)) ->
  Array_map f array = Return (g <$> array).
Proof.
  induction array as [|x array IH]; intros Hf; cbn [Array_map]; [done|].
  rewrite Hf by by left. cbn [bind].
  rewrite IH by (intros y Hy; apply Hf; by right). done.
Qed.

Lemma Array_forEach_app (f : S -> A -> outcome S) (pre post : list A) state :
  Array_forEach f (pre ++ post) state
  = bind (Array_forEach f pre state) (Array_forEach f post).
Proof.
  revert state. induction pre as [|x pre IH]; intros state; [done|].
  cbn [app Array_forEach]. destruct (f state x) as [state'|e]; [|done].
  cbn [bind]. apply IH.
Qed.
End Outcomes.

Section Buckets.
Variable zone : Zone.
Implicit Types (m : gmap string FundsFlowByDate).
Implicit Types (t : BalanceTransaction.t) (data : list BalanceTransaction.t).
Implicit Types (dates : list string).

Lemma dayLabels_length today : length (dayLabels today) = 10%nat.
Proof. unfold dayLabels. by rewrite length_fmap, length_seqZ. Qed.

Lemma dayLabels_lookup today (i : nat) :
  (i < 10)%nat ->
  dayLabels today !! i = Some (formatDay (today - Z.of_nat i) DATE_FORMAT).
Proof.
  intros Hi. unfold dayLabels, NUMBER_OF_DAYS.
  rewrite list_lookup_fmap, lookup_seqZ_lt by lia. done.
Qed.

Lemma dayLabels_NoDup today : NoDup (dayLabels today).
Proof.
  apply NoDup_alt. intros i j label Hi Hj.
  pose proof (lookup_lt_Some _ _ _ Hi) as Hi'.
  pose proof (lookup_lt_Some _ _ _ Hj) as Hj'.
  rewrite dayLabels_length in Hi', Hj'.
  rewrite dayLabels_lookup in Hi, Hj by done.
  destruct (decide (i = j)) as [|Hne]; [done|exfalso].
  destruct (decide (i < j)%nat).
  - apply (formatDay_distinct (today - Z.of_nat j) (today - Z.of_nat i));
      [lia | congruence].
  - apply (formatDay_distinct (today - Z.of_nat i) (today - Z.of_nat j));
      [lia | congruence].
Qed.

Lemma dayLabels_reverse_lookup today (i : nat) :
  (i < 10)%nat ->
  reverse (dayLabels today) !! i = Some (windowLabel today i).
Proof.
  intros Hi. rewrite reverse_lookup by (rewrite dayLabels_length; lia).
  rewrite dayLabels_length, dayLabels_lookup by lia.
  unfold windowLabel. do 2 f_equal. lia.
Qed.

(** The labels that the code computes for a window of valid dates. *)
Lemma datesArray_Return endDate :
  keepsDay zone -> validWindow zone endDate ->
  datesArray zone (Some endDate) = Return (dayLabels (localDay zone endDate)).
Proof.
  intros Hzone [_ Hwindow]. unfold datesArray, Array_from, dayLabels.
  apply Array_map_Return. intros index Hindex%elem_of_seqZ.
  cbn zeta. rewrite format_addDays by (done || apply Hwindow; lia).
  reflexivity.
Qed.

Lemma zeroFundsFlow_from m dates label :
  foldl (fun acc formattedDate =>
           <[formattedDate :=
               {| date := formattedDate; fundsIn := zero; fundsOut := zero |}]>
             acc) m dates !! label
  = if decide (label ∈ dates)
    then Some {| date := label; fundsIn := zero; fundsOut := zero |}
    else m !! label.
Proof.
  revert m. induction dates as [|d dates IH]; intros m; cbn [foldl].
  - rewrite decide_False; [done | apply not_elem_of_nil].
  - rewrite IH. destruct (decide (label ∈ dates)) as [Hin|Hnin].
    + rewrite decide_True; [done | by right].
    + destruct (decide (d = label)) as [->|Hne].
      * rewrite lookup_insert_eq, decide_True; [done | by left].
      * rewrite lookup_insert_ne by done.
        rewrite decide_False; [done|]. rewrite elem_of_cons.
        intros [Heq|Hin]; [by apply Hne | by apply Hnin].
Qed.

Lemma zeroFundsFlow_lookup dates label :
  zeroFundsFlow dates !! label
  = if decide (label ∈ dates)
    then Some {| date := label; fundsIn := zero; fundsOut := zero |}
    else None.
Proof. unfold zeroFundsFlow. by rewrite zeroFundsFlow_from, lookup_empty. Qed.

Lemma zeroFundsFlow_dom dates :
  dom (zeroFundsFlow dates) = list_to_set dates.
Proof.
  apply set_eq. intros label.
  rewrite elem_of_dom, zeroFundsFlow_lookup, elem_of_list_to_set.
  destruct (decide (label ∈ dates)) as [Hin|Hnin].
  - split; [done | by eexists].
  - split; [by intros [? ?] | done].
Qed.

(** *** The callback *)

Lemma format_created t :
  validCreated t ->
  format zone (TimeClip (BalanceTransaction.created t * 1000)) DATE_FORMAT
  = Return (formattedDate zone t).
Proof. intros Hvalid. by rewrite TimeClip_valid. Qed.

Lemma format_created_invalid t :
  ~ validCreated t ->
  format zone (TimeClip (BalanceTransaction.created t * 1000)) DATE_FORMAT
  = Throw "RangeError: Invalid time value".
Proof. intros Hinvalid. by rewrite TimeClip_invalid. Qed.

(** The callback on a transaction of valid date, as a function of the two
    objects. *)
Lemma forEachTransaction_tally m (l : list BalanceTransaction.t) t :
  validCreated t ->
  forEachTransaction zone (m, l) t
  = Return (tally zone m t, l ++ settledOnly [t]).
Proof.
  intros Hvalid. unfold forEachTransaction, tally, settledOnly.
  rewrite format_created by done. cbn [bind].
  destruct (isHoldOrRelease (BalanceTransaction.type t)) eqn:Htype;
    cbn [negb].
  - rewrite filter_cons_False by congruence. by rewrite filter_nil, app_nil_r.
  - rewrite filter_cons_True by done. by rewrite filter_nil.
Qed.

(** The callback throws on a transaction of invalid date, whatever its
    type. *)
Lemma forEachTransaction_invalid
    (state : gmap string FundsFlowByDate * list BalanceTransaction.t) t :
  ~ validCreated t ->
  forEachTransaction zone state t = Throw "RangeError: Invalid time value".
Proof.
  intros Hinvalid. unfold forEachTransaction. destruct state as [m l].
  by rewrite format_created_invalid.
Qed.

Lemma settledOnly_app data data' :
  settledOnly (data ++ data') = settledOnly data ++ settledOnly data'.
Proof. apply filter_app. Qed.

Lemma Array_forEach_tally m (l : list BalanceTransaction.t) data :
  Forall validCreated data ->
  Array_forEach (forEachTransaction zone) data (m, l)
  = Return (foldl (tally zone) m data, l ++ settledOnly data).
Proof.
  intros Hdata. revert m l.
  induction Hdata as [|t data Ht Hdata IH]; intros m l;
    cbn [Array_forEach foldl].
  - unfold settledOnly. by rewrite filter_nil, app_nil_r.
  - rewrite forEachTransaction_tally by done. cbn [bind].
    rewrite IH, <- app_assoc. by rewrite <- settledOnly_app.
Qed.

(** The loop stops at the first transaction of invalid date. *)
Lemma Array_forEach_invalid
    (state : gmap string FundsFlowByDate * list BalanceTransaction.t)
    pre t post :
  Forall validCreated pre -> ~ validCreated t ->
  Array_forEach (forEachTransaction zone) (pre ++ t :: post) state
  = Throw "RangeError: Invalid time value".
Proof.
  intros Hpre Hinvalid. destruct state as [m l].
  rewrite Array_forEach_app, Array_forEach_tally by done.
  cbn [bind Array_forEach]. by rewrite forEachTransaction_invalid.
Qed.

(** *** One transaction *)

Lemma tally_hold m t :
  isHoldOrRelease (BalanceTransaction.type t) = true -> tally zone m t = m.
Proof. intros H. unfold tally. by rewrite H. Qed.

Lemma tally_absent m t : m !! formattedDate zone t = None -> tally zone m t = m.
Proof.
  intros H. unfold tally. rewrite H.
  by destruct (isHoldOrRelease (BalanceTransaction.type t)).
Qed.

Lemma tally_other m t label :
  label <> formattedDate zone t -> tally zone m t !! label = m !! label.
Proof.
  intros Hne. unfold tally.
  destruct (isHoldOrRelease (BalanceTransaction.type t)); [done|].
  destruct (m !! formattedDate zone t) as [flow|]; [|done].
  cbn zeta. destruct (gt _ _); by rewrite lookup_insert_ne.
Qed.

Lemma tally_dom m t : dom (tally zone m t) = dom m.
Proof.
  unfold tally.
  destruct (isHoldOrRelease (BalanceTransaction.type t)); [done|].
  destruct (m !! formattedDate zone t) as [flow|] eqn:Hflow; [|done].
  assert (formattedDate zone t ∈ dom m) by (apply elem_of_dom; eauto).
  cbn zeta. destruct (gt _ _); rewrite dom_insert_L;
    apply subseteq_union_1_L; by apply singleton_subseteq_l.
Qed.

Lemma foldl_tally_dom m data : dom (foldl (tally zone) m data) = dom m.
Proof.
  revert m. induction data as [|t data IH]; intros m; cbn [foldl]; [done|].
  by rewrite IH, tally_dom.
Qed.

(** A bucket that no settled transaction of [data] is dated on is left
    as it was. *)
Lemma foldl_tally_untouched m data label :
  (forall t, t ∈ data ->
             isHoldOrRelease (BalanceTransaction.type t) = false ->
             formattedDate zone t <> label) ->
  foldl (tally zone) m data !! label = m !! label.
Proof.
  revert m. induction data as [|t data IH]; intros m Hdata; cbn [foldl].
  - done.
  - rewrite IH by (intros t' Ht'; apply Hdata; by right).
    destruct (isHoldOrRelease (BalanceTransaction.type t)) eqn:Htype.
    + by rewrite tally_hold.
    + apply tally_other. intros ->. eapply Hdata; [by left | done | done].
Qed.

(** *** Amounts are sums of absolute values *)

Lemma zeroFundsFlow_nonneg dates : nonnegFlows (zeroFundsFlow dates).
Proof.
  intros label flow. rewrite zeroFundsFlow_lookup.
  case_decide; [|done]. by intros [= <-].
Qed.

Lemma tally_nonneg m t : nonnegFlows m -> nonnegFlows (tally zone m t).
Proof.
  intros Hm. unfold tally.
  destruct (isHoldOrRelease (BalanceTransaction.type t)); [done|].
  destruct (m !! formattedDate zone t) as [flow|] eqn:Hflow; [|done].
  destruct (Hm _ _ Hflow) as [Hin Hout].
  pose proof (div_abs_nonneg (BalanceTransaction.amount t)) as Hamount.
  cbn zeta. destruct (gt _ _); apply map_Forall_insert_2; try done; cbn;
    split; try done; by apply add_nonneg.
Qed.

Lemma foldl_tally_nonneg m data :
  nonnegFlows m -> nonnegFlows (foldl (tally zone) m data).
Proof.
  revert m. induction data as [|t data IH]; intros m Hm; cbn [foldl];
    [done|]. by apply IH, tally_nonneg.
Qed.

(** An amount of zero, of either sign, changes no bucket. *)
Lemma tally_zero_amount m t s :
  nonnegFlows m -> BalanceTransaction.amount t = S754_zero s ->
  tally zone m t = m.
Proof.
  intros Hm Hzero. unfold tally. rewrite Hzero, gt_zero, div_abs_zero.
  destruct (isHoldOrRelease (BalanceTransaction.type t)); [done|].
  destruct (m !! formattedDate zone t) as [flow|] eqn:Hflow; [|done].
  apply insert_id. rewrite Hflow. f_equal.
  destruct (Hm _ _ Hflow) as [_ Hout]. destruct flow as [d fi fo].
  unfold addFundsOut. cbn in *. by rewrite add_zero_r.
Qed.

(** *** Reading the buckets back *)

Lemma Array_map_readFlow {A} (field : FundsFlowByDate -> A) (dflt : A)
    m dates :
  (forall label, label ∈ dates -> is_Some (m !! label)) ->
  Array_map (readFlow field m) dates
  = Return ((fun label => from_option field dflt (m !! label)) <$> dates).
Proof.
  intros Hdates. apply Array_map_Return. intros label Hlabel.
  destruct (Hdates label Hlabel) as [flow Hflow].
  unfold readFlow. by rewrite Hflow.
Qed.

(** What [balanceFundsFlow] returns once the labels are computed, on
    transactions of valid dates. *)
Lemma balanceFundsFlow_from endDate dates data currency :
  datesArray zone endDate = Return dates ->
  Forall validCreated data ->
  let m := foldl (tally zone) (zeroFundsFlow dates) data in
  balanceFundsFlow zone endDate data currency
  = Return
      {| balanceTransactions := settledOnly data;
         balanceFundsFlowChartData :=
           {| currency := currency;
              balanceTransactionsDates := reverse dates;
              balanceTransactionsFundsIn :=
                reverse ((fun label => from_option fundsIn zero (m !! label))
                           <$> dates);
              balanceTransactionsFundsOut :=
                reverse ((fun label => from_option fundsOut zero (m !! label))
                           <$> dates) |} |}.
Proof.
  intros Hdates Hdata m. unfold balanceFundsFlow.
  rewrite Hdates. cbn [bind]. rewrite Array_forEach_tally by done.
  cbn [bind app]. fold m.
  assert (Hsome : forall label, label ∈ dates -> is_Some (m !! label)).
  { intros label Hlabel. apply elem_of_dom. unfold m.
    rewrite foldl_tally_dom, zeroFundsFlow_dom.
    by apply elem_of_list_to_set. }
  rewrite (Array_map_readFlow fundsIn zero), (Array_map_readFlow fundsOut zero)
    by done.
  reflexivity.
Qed.

(** The call is rejected at the first transaction of invalid date. *)
Lemma balanceFundsFlow_invalid endDate dates pre t post currency :
  datesArray zone endDate = Return dates ->
  Forall validCreated pre -> ~ validCreated t ->
  balanceFundsFlow zone endDate (pre ++ t :: post) currency
  = Throw "RangeError: Invalid time value".
Proof.
  intros Hdates Hpre Hinvalid. unfold balanceFundsFlow.
  rewrite Hdates. cbn [bind]. by rewrite Array_forEach_invalid.
Qed.

Lemma tallied_from endDate dates data :
  datesArray zone endDate = Return dates ->
  Forall validCreated data ->
  tallied zone endDate data
  = Return (foldl (tally zone) (zeroFundsFlow dates) data, settledOnly data).
Proof.
  intros Hdates Hdata. unfold tallied. rewrite Hdates. cbn [bind].
  by rewrite Array_forEach_tally.
Qed.

Section ValidWindow.
Variable endDate : Z.
Hypothesis zone_keepsDay : keepsDay zone.
Hypothesis endDate_valid : validWindow zone endDate.

(** [balanceFundsFlow] on a window and on transactions of valid dates:
    it returns, and what. *)
Lemma balanceFundsFlow_Return data currency :
  Forall validCreated data ->
  balanceFundsFlow zone (Some endDate) data currency
  = Return
      {| balanceTransactions := settledOnly data;
         balanceFundsFlowChartData :=
           {| currency := currency;
              balanceTransactionsDates :=
                reverse (dayLabels (localDay zone endDate));
              balanceTransactionsFundsIn :=
                series fundsIn (localDay zone endDate)
                  (foldl (tally zone)
                     (zeroFundsFlow (dayLabels (localDay zone endDate))) data);
              balanceTransactionsFundsOut :=
                series fundsOut (localDay zone endDate)
                  (foldl (tally zone)
                     (zeroFundsFlow (dayLabels (localDay zone endDate)))
                     data) |} |}.
Proof.
  intros Hdata.
  by rewrite (balanceFundsFlow_from _ _ _ _ (datesArray_Return _ zone_keepsDay
                                              endDate_valid) Hdata).
Qed.

Lemma tallied_Return data :
  Forall validCreated data ->
  tallied zone (Some endDate) data
  = Return (foldl (tally zone)
              (zeroFundsFlow (dayLabels (localDay zone endDate))) data,
            settledOnly data).
Proof.
  intros Hdata. apply tallied_from; [|done].
  by apply datesArray_Return.
Qed.
End ValidWindow.
End Buckets.

(** ** The funds-flow aggregation *)

Lemma series_lookup {A} (F : string -> A) today (i : nat) :
  (i < 10)%nat ->
  reverse (F <$> dayLabels today) !! i = Some (F (windowLabel today i)).
Proof.
  intros Hi.
  by rewrite <- fmap_reverse, list_lookup_fmap, dayLabels_reverse_lookup.
Qed.

Lemma windowLabel_elem_of today (i : nat) :
  (i < 10)%nat -> windowLabel today i ∈ dayLabels today.
Proof.
  intros Hi. apply elem_of_reverse, list_elem_of_lookup. exists i.
  by apply dayLabels_reverse_lookup.
Qed.

(** The [i]-th date of a valid window, oldest first, is on the [i]-th
    local day from nine days before that of [endDate]. *)
Lemma window_date zone endDate (i : nat) :
  keepsDay zone -> validWindow zone endDate -> (i < 10)%nat ->
  exists time,
    addDays zone (Some endDate) (Z.of_nat i - 9) = Some time
    /\ localDay zone time = localDay zone endDate - 9 + Z.of_nat i.
Proof.
  intros Hzone [_ Hwindow] Hi.
  destruct (Hwindow (9 - Z.of_nat i)) as [time Htime];
    [unfold NUMBER_OF_DAYS; lia|].
  replace (- (9 - Z.of_nat i)) with (Z.of_nat i - 9) in Htime by lia.
  exists time. split; [done|].
  rewrite (addDays_localDay zone Hzone _ _ _ Htime). lia.
Qed.

(** C1. On a window of valid dates, in a zone that keeps days, and
    whatever the transactions of valid dates, the aggregation holds exactly
    [NUMBER_OF_DAYS] = 10 buckets, one per local calendar day from nine
    days before that of [endDate] to that of [endDate], under pairwise
    distinct "MMM dd" labels, and returns one entry per bucket. The entry
    of a day on which no transaction other than a hold or a release is
    dated reads fundsIn = 0 and fundsOut = 0; none is missing. For the
    empty list every entry does. *)
Theorem balanceFundsFlow_ten_buckets zone endDate data currency :
  keepsDay zone -> validWindow zone endDate -> Forall validCreated data ->
  exists buckets transactionList r,
    tallied zone (Some endDate) data = Return (buckets, transactionList)
    /\ balanceFundsFlow zone (Some endDate) data currency = Return r
    /\ size buckets = 10%nat
    /\ let chart := balanceFundsFlowChartData r in
       length (balanceTransactionsDates chart) = 10%nat
       /\ NoDup (balanceTransactionsDates chart)
       /\ dom buckets = list_to_set (balanceTransactionsDates chart)
       /\ (forall i : nat, (i < 10)%nat ->
             let day := localDay zone endDate - 9 + Z.of_nat i in
             let label := formatDay day DATE_FORMAT in
             (exists time,
                addDays zone (Some endDate) (Z.of_nat i - 9) = Some time
                /\ localDay zone time = day
                /\ format zone (Some time) DATE_FORMAT = Return label)
             /\ balanceTransactionsDates chart !! i = Some label
             /\ is_Some (buckets !! label)
             /\ is_Some (balanceTransactionsFundsIn chart !! i)
             /\ is_Some (balanceTransactionsFundsOut chart !! i)
             /\ ((forall t, t ∈ data ->
                    isHoldOrRelease (BalanceTransaction.type t) = false ->
                    formattedDate zone t <> label) ->
                 balanceTransactionsFundsIn chart !! i = Some zero
                 /\ balanceTransactionsFundsOut chart !! i = Some zero))
       /\ (data = [] ->
           balanceTransactionsFundsIn chart = replicate 10 zero
           /\ balanceTransactionsFundsOut chart = replicate 10 zero).
Proof.
  intros Hzone Hwindow Hdata.
  set (today := localDay zone endDate).
  set (buckets := foldl (tally zone) (zeroFundsFlow (dayLabels today)) data).
  exists buckets, (settledOnly data). eexists.
  split; [by apply tallied_Return|].
  split; [by apply balanceFundsFlow_Return|].
  assert (Hdom : dom buckets = list_to_set (dayLabels today)).
  { unfold buckets. by rewrite foldl_tally_dom, zeroFundsFlow_dom. }
  split.
  { rewrite <- size_dom, Hdom, size_list_to_set by apply dayLabels_NoDup.
    apply dayLabels_length. }
  cbn [balanceFundsFlowChartData balanceTransactionsDates
         balanceTransactionsFundsIn balanceTransactionsFundsOut].
  fold today. fold buckets. unfold series.
  assert (Hzero : forall i : nat, (i < 10)%nat ->
            (forall t, t ∈ data ->
               isHoldOrRelease (BalanceTransaction.type t) = false ->
               formattedDate zone t <> windowLabel today i) ->
            buckets !! windowLabel today i
            = Some {| date := windowLabel today i;
                      fundsIn := zero; fundsOut := zero |}).
  { intros i Hi Hnone. unfold buckets.
    rewrite foldl_tally_untouched by done.
    rewrite zeroFundsFlow_lookup, decide_True; [done|].
    by apply windowLabel_elem_of. }
  split; [by rewrite length_reverse, dayLabels_length|].
  split; [rewrite reverse_Permutation; apply dayLabels_NoDup|].
  split.
  { rewrite Hdom. apply set_eq. intros label.
    by rewrite !elem_of_list_to_set, elem_of_reverse. }
  split.
  - intros i Hi. cbn zeta. change (formatDay (today - 9 + Z.of_nat i) DATE_FORMAT)
      with (windowLabel today i).
    rewrite !series_lookup by done.
    split.
    { destruct (window_date zone endDate i Hzone Hwindow Hi)
        as (time & Htime & Hday).
      exists time. split; [done|]. split; [done|].
      cbn [format]. by rewrite Hday. }
    split; [by apply dayLabels_reverse_lookup|].
    split.
    { apply elem_of_dom. rewrite Hdom. apply elem_of_list_to_set.
      by apply windowLabel_elem_of. }
    split; [by eexists|]. split; [by eexists|].
    intros Hnone. by rewrite Hzero.
  - intros Hnil.
    assert (Hall : forall (field : FundsFlowByDate -> number),
              (forall d, field {| date := d; fundsIn := zero; fundsOut := zero |}
                         = zero) ->
              reverse ((fun label => from_option field zero (buckets !! label))
                         <$> dayLabels today)
              = replicate 10 zero).
    { intros field Hfield. apply list_eq. intros i.
      destruct (decide (i < 10)%nat) as [Hi|Hi].
      - rewrite series_lookup by done.
        rewrite Hzero by (done || rewrite Hnil; by intros t Ht%elem_of_nil).
        cbn [from_option]. rewrite Hfield. symmetry.
        by apply lookup_replicate_2.
      - rewrite !lookup_ge_None_2; [done | |].
        + rewrite length_replicate. lia.
        + rewrite length_reverse, length_fmap, dayLabels_length. lia. }
    split; by apply Hall.
Qed.

Lemma isHoldOrRelease_true type :
  type = "issuing_authorization_release"
  \/ type = "issuing_authorization_hold" ->
  isHoldOrRelease type = true.
Proof. by intros [-> | ->]. Qed.

Lemma foldl_tally_middle zone m pre t post :
  foldl (tally zone) m (pre ++ t :: post)
  = foldl (tally zone) (tally zone (foldl (tally zone) m pre) t) post.
Proof. by rewrite foldl_app. Qed.

(** The callback leaves the two objects as they are on a hold or a release
    of valid date. *)
Lemma forEachTransaction_hold zone
    (state : gmap string FundsFlowByDate * list BalanceTransaction.t) t :
  validCreated t ->
  isHoldOrRelease (BalanceTransaction.type t) = true ->
  forEachTransaction zone state t = Return state.
Proof.
  intros Hvalid Htype. destruct state as [m l].
  rewrite forEachTransaction_tally, tally_hold by done.
  unfold settledOnly. rewrite filter_cons_False by congruence.
  by rewrite filter_nil, app_nil_r.
Qed.

(** The loop runs as without a transaction that the callback leaves the
    objects on. *)
Lemma Array_forEach_skip {A S} (f : S -> A -> outcome S) pre x post state :
  (forall state, f state x = Return state) ->
  Array_forEach f (pre ++ x :: post) state
  = Array_forEach f (pre ++ post) state.
Proof.
  intros Hskip. rewrite !Array_forEach_app.
  destruct (Array_forEach f pre state) as [state'|e]; [|done].
  cbn [bind Array_forEach]. by rewrite Hskip.
Qed.

(** C2. A transaction of type issuing_authorization_release or
    issuing_authorization_hold whose date is valid leaves every bucket,
    hence fundsIn and fundsOut of every day, as they were, and is left out
    of the returned [balanceTransactions]: the aggregation does with it
    what it does without it. The callback formats the date before it tests
    the type: a hold or a release whose date is not valid makes it throw,
    and the call is rejected. *)
Theorem hold_or_release_ignored zone endDate pre t post currency :
  BalanceTransaction.type t = "issuing_authorization_release"
  \/ BalanceTransaction.type t = "issuing_authorization_hold" ->
  (validCreated t ->
   (forall fundsFlowByDate transactionList,
      forEachTransaction zone (fundsFlowByDate, transactionList) t
      = Return (fundsFlowByDate, transactionList))
   /\ tallied zone endDate (pre ++ t :: post)
      = tallied zone endDate (pre ++ post)
   /\ balanceFundsFlow zone endDate (pre ++ t :: post) currency
      = balanceFundsFlow zone endDate (pre ++ post) currency
   /\ (forall dates, datesArray zone endDate = Return dates ->
       Forall validCreated (pre ++ post) ->
       exists r,
         balanceFundsFlow zone endDate (pre ++ t :: post) currency = Return r
         /\ (t ∉ balanceTransactions r)
         /\ balanceTransactions r = settledOnly (pre ++ post)))
  /\ (~ validCreated t ->
      (forall state,
         forEachTransaction zone state t
         = Throw "RangeError: Invalid time value")
      /\ (forall dates, datesArray zone endDate = Return dates ->
          Forall validCreated pre ->
          balanceFundsFlow zone endDate (pre ++ t :: post) currency
          = Throw "RangeError: Invalid time value")).
Proof.
  intros Htype%isHoldOrRelease_true. split.
  - intros Hvalid.
    assert (Hskip : forall state, forEachTransaction zone state t = Return state)
      by (intros state; by apply forEachTransaction_hold).
    split; [intros m l; apply Hskip|].
    split.
    { unfold tallied. destruct (datesArray zone endDate) as [dates|e]; [|done].
      cbn [bind]. by apply Array_forEach_skip. }
    split.
    { unfold balanceFundsFlow.
      destruct (datesArray zone endDate) as [dates|e]; [|done].
      cbn [bind]. by rewrite Array_forEach_skip. }
    intros dates Hdates Hdata.
    assert (Hall : Forall validCreated (pre ++ t :: post)).
    { apply Forall_app in Hdata as [Hpre Hpost].
      apply Forall_app. split; [done|]. by constructor. }
    eexists. split; [by apply (balanceFundsFlow_from zone endDate dates)|].
    cbn [balanceTransactions]. unfold settledOnly. split.
    + rewrite list_elem_of_filter. intros [Hsettled _]. congruence.
    + rewrite !filter_app, filter_cons_False by congruence. done.
  - intros Hinvalid. split.
    + intros state. by apply forEachTransaction_invalid.
    + intros dates Hdates Hpre. by apply (balanceFundsFlow_invalid zone _ dates).
Qed.

(** C3. On a window of valid dates, in a zone that keeps days, and
    whatever the transactions of valid dates, the returned dates, fundsIn
    and fundsOut have the same length; they are the buckets read in the
    reverse of the order of construction, which is newest first: the entry
    of index [i] is that of the [i]-th day from nine days before that of
    [endDate] on, oldest first. *)
Theorem series_parallel_ascending zone endDate data currency :
  keepsDay zone -> validWindow zone endDate -> Forall validCreated data ->
  exists dates buckets transactionList r,
    datesArray zone (Some endDate) = Return dates
    /\ tallied zone (Some endDate) data = Return (buckets, transactionList)
    /\ balanceFundsFlow zone (Some endDate) data currency = Return r
    /\ let chart := balanceFundsFlowChartData r in
       length (balanceTransactionsFundsIn chart)
       = length (balanceTransactionsDates chart)
       /\ length (balanceTransactionsFundsOut chart)
          = length (balanceTransactionsDates chart)
       /\ balanceTransactionsDates chart = reverse dates
       /\ (forall i : nat, (i < 10)%nat ->
             exists time,
               addDays zone (Some endDate) (- Z.of_nat i) = Some time
               /\ localDay zone time = localDay zone endDate - Z.of_nat i
               /\ dates !! i = Some (formatDay (localDay zone time) DATE_FORMAT))
       /\ (forall i : nat, (i < 10)%nat ->
             exists time,
               addDays zone (Some endDate) (Z.of_nat i - 9) = Some time
               /\ localDay zone time = localDay zone endDate - 9 + Z.of_nat i
               /\ balanceTransactionsDates chart !! i
                  = Some (formatDay (localDay zone time) DATE_FORMAT))
       /\ (forall (i : nat) label,
             balanceTransactionsDates chart !! i = Some label ->
             exists flow,
               buckets !! label = Some flow
               /\ balanceTransactionsFundsIn chart !! i = Some (fundsIn flow)
               /\ balanceTransactionsFundsOut chart !! i
                  = Some (fundsOut flow)).
Proof.
  intros Hzone Hwindow Hdata.
  set (today := localDay zone endDate).
  set (buckets := foldl (tally zone) (zeroFundsFlow (dayLabels today)) data).
  exists (dayLabels today), buckets, (settledOnly data). eexists.
  split; [by apply datesArray_Return|].
  split; [by apply tallied_Return|].
  split; [by apply balanceFundsFlow_Return|].
  cbn [balanceFundsFlowChartData balanceTransactionsDates
         balanceTransactionsFundsIn balanceTransactionsFundsOut].
  fold today. fold buckets. unfold series.
  rewrite !length_reverse, !length_fmap.
  split; [done|]. split; [done|]. split; [done|].
  split.
  { intros i Hi.
    destruct (window_date zone endDate (9 - i) Hzone Hwindow) as
      (time & Htime & Hday); [lia|].
    replace (Z.of_nat (9 - i) - 9) with (- Z.of_nat i) in Htime by lia.
    exists time. split; [done|]. split; [lia|].
    rewrite dayLabels_lookup by done. do 3 f_equal. fold today in Hday. lia. }
  split.
  { intros i Hi.
    destruct (window_date zone endDate i Hzone Hwindow Hi)
      as (time & Htime & Hday).
    exists time. split; [done|]. split; [done|].
    rewrite dayLabels_reverse_lookup by done. by rewrite Hday. }
  intros i label Hlabel.
  assert (Hi : (i < 10)%nat).
  { apply lookup_lt_Some in Hlabel.
    by rewrite length_reverse, dayLabels_length in Hlabel. }
  rewrite dayLabels_reverse_lookup in Hlabel by done.
  injection Hlabel as <-. rewrite !series_lookup by done.
  assert (is_Some (buckets !! windowLabel today i)) as [flow Hflow].
  { apply elem_of_dom. unfold buckets.
    rewrite foldl_tally_dom, zeroFundsFlow_dom. apply elem_of_list_to_set.
    by apply windowLabel_elem_of. }
  exists flow. split; [done|]. by rewrite Hflow.
Qed.

(** *** One more transaction *)

Section Appended.
Variable zone : Zone.
Variable endDate : Z.
Hypothesis zone_keepsDay : keepsDay zone.
Hypothesis endDate_valid : validWindow zone endDate.

Local Abbreviation today := (localDay zone endDate).
Local Abbreviation labelOf := (windowLabel (localDay zone endDate)).
Local Abbreviation seriesOf field := (series field (localDay zone endDate)).
Local Abbreviation bucketsOf data :=
  (foldl (tally zone) (zeroFundsFlow (dayLabels (localDay zone endDate))) data).

Lemma windowLabel_inj (i j : nat) :
  (i < 10)%nat -> (j < 10)%nat -> labelOf i = labelOf j -> i = j.
Proof.
  intros Hi Hj Heq.
  apply (NoDup_lookup (reverse (dayLabels today)) i j (labelOf i)).
  - rewrite reverse_Permutation. apply dayLabels_NoDup.
  - by apply dayLabels_reverse_lookup.
  - rewrite Heq. by apply dayLabels_reverse_lookup.
Qed.

Lemma formattedDate_windowLabel t (k : nat) :
  localDay zone (BalanceTransaction.created t * 1000)
  = today - 9 + Z.of_nat k ->
  formattedDate zone t = labelOf k.
Proof. intros Hday. unfold formattedDate, windowLabel. by rewrite Hday. Qed.

Lemma bucketsOf_dom data :
  dom (bucketsOf data) = list_to_set (dayLabels today).
Proof. by rewrite foldl_tally_dom, zeroFundsFlow_dom. Qed.

(** A settled transaction dated on the [k]-th day of the window, after
    [pre]: its amount goes to that day's bucket, to fundsIn if positive
    and to fundsOut otherwise. *)
Lemma bucketsOf_app_settled pre t (k : nat) :
  (k < 10)%nat ->
  isHoldOrRelease (BalanceTransaction.type t) = false ->
  localDay zone (BalanceTransaction.created t * 1000)
  = today - 9 + Z.of_nat k ->
  let amount := div (Math_abs (BalanceTransaction.amount t)) (of_Z 100) in
  exists flow,
    bucketsOf pre !! labelOf k = Some flow
    /\ bucketsOf (pre ++ [t])
       = <[labelOf k :=
             if gt (BalanceTransaction.amount t) (of_Z 0)
             then addFundsIn amount flow
             else addFundsOut amount flow]> (bucketsOf pre).
Proof.
  intros Hk Htype Hday amount.
  assert (is_Some (bucketsOf pre !! labelOf k)) as [flow Hflow].
  { apply elem_of_dom. rewrite bucketsOf_dom. apply elem_of_list_to_set.
    by apply windowLabel_elem_of. }
  exists flow. split; [done|].
  rewrite foldl_app. cbn [foldl]. unfold tally at 1. rewrite Htype.
  rewrite (formattedDate_windowLabel t k Hday), Hflow.
  cbn zeta. by destruct (gt _ _).
Qed.

Lemma series_insert_eq field m (k : nat) flow :
  (k < 10)%nat ->
  seriesOf field (<[labelOf k := flow]> m) !! k = Some (field flow).
Proof.
  intros Hk. unfold series. rewrite series_lookup by done.
  by rewrite lookup_insert_eq.
Qed.

Lemma series_insert_ne field m (k i : nat) flow :
  (k < 10)%nat -> i <> k ->
  seriesOf field (<[labelOf k := flow]> m) !! i = seriesOf field m !! i.
Proof.
  intros Hk Hne. unfold series.
  destruct (decide (i < 10)%nat) as [Hi|Hi].
  - rewrite !series_lookup by done.
    rewrite lookup_insert_ne; [done|].
    intros Heq. apply Hne. symmetry. by apply windowLabel_inj.
  - rewrite !lookup_ge_None_2; [done | |];
      rewrite length_reverse, length_fmap, dayLabels_length; lia.
Qed.

Lemma series_insert_same field m (k : nat) flow flow' :
  (k < 10)%nat -> m !! labelOf k = Some flow ->
  field flow' = field flow ->
  seriesOf field (<[labelOf k := flow']> m) = seriesOf field m.
Proof.
  intros Hk Hflow Hfield. apply list_eq. intros i.
  destruct (decide (i = k)) as [->|Hne].
  - rewrite series_insert_eq by done. unfold series.
    rewrite series_lookup by done.
    by rewrite Hflow, Hfield.
  - by apply series_insert_ne.
Qed.

Lemma series_lookup_Some field m (k : nat) flow :
  (k < 10)%nat -> m !! labelOf k = Some flow ->
  seriesOf field m !! k = Some (field flow).
Proof.
  intros Hk Hflow. unfold series. rewrite series_lookup by done.
  by rewrite Hflow.
Qed.

(** What one more settled transaction, dated on the [k]-th day of the
    window, does to the returned series. *)
Lemma balanceFundsFlow_app_settled pre t (k : nat) currency :
  Forall validCreated pre -> validCreated t ->
  (k < 10)%nat ->
  isHoldOrRelease (BalanceTransaction.type t) = false ->
  localDay zone (BalanceTransaction.created t * 1000)
  = today - 9 + Z.of_nat k ->
  let amount := div (Math_abs (BalanceTransaction.amount t)) (of_Z 100) in
  exists r r' flow,
    balanceFundsFlow zone (Some endDate) pre currency = Return r
    /\ balanceFundsFlow zone (Some endDate) (pre ++ [t]) currency = Return r'
    /\ bucketsOf pre !! labelOf k = Some flow
    /\ let chart := balanceFundsFlowChartData r in
       let chart' := balanceFundsFlowChartData r' in
       balanceTransactionsFundsIn chart !! k = Some (fundsIn flow)
       /\ balanceTransactionsFundsOut chart !! k = Some (fundsOut flow)
       /\ (forall i : nat, i <> k ->
             balanceTransactionsFundsIn chart' !! i
             = balanceTransactionsFundsIn chart !! i
             /\ balanceTransactionsFundsOut chart' !! i
                = balanceTransactionsFundsOut chart !! i)
       /\ if gt (BalanceTransaction.amount t) (of_Z 0)
          then balanceTransactionsFundsIn chart' !! k
               = Some (add (fundsIn flow) amount)
               /\ balanceTransactionsFundsOut chart'
                  = balanceTransactionsFundsOut chart
          else balanceTransactionsFundsOut chart' !! k
               = Some (add (fundsOut flow) amount)
               /\ balanceTransactionsFundsIn chart'
                  = balanceTransactionsFundsIn chart.
Proof.
  intros Hpre Hvalid Hk Htype Hday amount.
  destruct (bucketsOf_app_settled pre t k Hk Htype Hday)
    as (flow & Hflow & Happ).
  fold amount in Happ.
  assert (Hall : Forall validCreated (pre ++ [t])).
  { apply Forall_app. split; [done|]. by constructor. }
  do 2 eexists. exists flow.
  split; [by apply balanceFundsFlow_Return|].
  split; [by apply balanceFundsFlow_Return|].
  split; [done|].
  cbn [balanceFundsFlowChartData balanceTransactionsFundsIn
         balanceTransactionsFundsOut].
  rewrite Happ.
  split; [by apply series_lookup_Some|].
  split; [by apply series_lookup_Some|].
  split.
  { intros i Hne. by rewrite !series_insert_ne. }
  destruct (gt _ _).
  - split; [by rewrite series_insert_eq|].
    by apply (series_insert_same fundsOut _ k flow).
  - split; [by rewrite series_insert_eq|].
    by apply (series_insert_same fundsIn _ k flow).
Qed.
End Appended.

Lemma zeroFundsFlow_lookup_Some dates label flow :
  zeroFundsFlow dates !! label = Some flow ->
  fundsIn flow = zero /\ fundsOut flow = zero.
Proof.
  rewrite zeroFundsFlow_lookup. case_decide; [|done]. by intros [= <-].
Qed.

(** C4. On a window of valid dates, in a zone that keeps days, and after
    any transactions of valid dates, one more transaction that is neither
    a hold nor a release, of amount 1050 and dated on the last local day of
    the window, adds to that day's fundsIn a number that is exactly
    1050 / 100 = 10.50, and changes neither another day's fundsIn nor any
    fundsOut; one of amount -500 dated on the first local day of the window
    adds to that day's fundsOut a number that is exactly 500 / 100 = 5.00.
    The number added is [Math.abs(amount) / 100]; added to the 0 of an
    empty bucket it is the bucket's new value. *)
Theorem amount_conversion zone endDate pre t currency :
  keepsDay zone -> validWindow zone endDate ->
  Forall validCreated pre -> validCreated t ->
  isHoldOrRelease (BalanceTransaction.type t) = false ->
  let increment := div (Math_abs (BalanceTransaction.amount t)) (of_Z 100) in
  (BalanceTransaction.amount t = of_Z 1050 ->
   localDay zone (BalanceTransaction.created t * 1000)
   = localDay zone endDate ->
   exists r r',
     balanceFundsFlow zone (Some endDate) pre currency = Return r
     /\ balanceFundsFlow zone (Some endDate) (pre ++ [t]) currency = Return r'
     /\ let chart := balanceFundsFlowChartData r in
        let chart' := balanceFundsFlowChartData r' in
        exactly increment 1050 100
        /\ (exists before,
              balanceTransactionsFundsIn chart !! 9%nat = Some before
              /\ balanceTransactionsFundsIn chart' !! 9%nat
                 = Some (add before increment))
        /\ (forall i : nat, i <> 9%nat ->
              balanceTransactionsFundsIn chart' !! i
              = balanceTransactionsFundsIn chart !! i)
        /\ balanceTransactionsFundsOut chart'
           = balanceTransactionsFundsOut chart
        /\ (pre = [] ->
            balanceTransactionsFundsIn chart' !! 9%nat = Some increment))
  /\ (BalanceTransaction.amount t = of_Z (-500) ->
      localDay zone (BalanceTransaction.created t * 1000)
      = localDay zone endDate - 9 ->
      exists r r',
        balanceFundsFlow zone (Some endDate) pre currency = Return r
        /\ balanceFundsFlow zone (Some endDate) (pre ++ [t]) currency
           = Return r'
        /\ let chart := balanceFundsFlowChartData r in
           let chart' := balanceFundsFlowChartData r' in
           exactly increment 500 100
           /\ (exists before,
                 balanceTransactionsFundsOut chart !! 0%nat = Some before
                 /\ balanceTransactionsFundsOut chart' !! 0%nat
                    = Some (add before increment))
           /\ (forall i : nat, i <> 0%nat ->
                 balanceTransactionsFundsOut chart' !! i
                 = balanceTransactionsFundsOut chart !! i)
           /\ balanceTransactionsFundsIn chart'
              = balanceTransactionsFundsIn chart
           /\ (pre = [] ->
               balanceTransactionsFundsOut chart' !! 0%nat = Some increment)).
Proof.
  intros Hzone Hwindow Hpre Hvalid Htype increment. split.
  - intros Hamount Hday.
    destruct (balanceFundsFlow_app_settled zone endDate Hzone Hwindow
                pre t 9 currency)
      as (r & r' & flow & Hr & Hr' & Hflow & Hin & Hout & Hothers & Hk);
      [done | done | lia | done | lia |].
    exists r, r'. split; [done|]. split; [done|]. cbn zeta.
    fold increment in Hk. unfold increment in *. rewrite Hamount in *.
    change (gt (of_Z 1050) (of_Z 0)) with true in Hk.
    destruct Hk as [Hin' Hout'].
    split; [by vm_compute|].
    split; [by exists (fundsIn flow)|].
    split; [intros i Hi; by apply Hothers|].
    split; [done|].
    intros ->. cbn [foldl] in Hflow.
    apply zeroFundsFlow_lookup_Some in Hflow as [Hzero _].
    by rewrite Hin', Hzero.
  - intros Hamount Hday.
    destruct (balanceFundsFlow_app_settled zone endDate Hzone Hwindow
                pre t 0 currency)
      as (r & r' & flow & Hr & Hr' & Hflow & Hin & Hout & Hothers & Hk);
      [done | done | lia | done | lia |].
    exists r, r'. split; [done|]. split; [done|]. cbn zeta.
    fold increment in Hk. unfold increment in *. rewrite Hamount in *.
    change (gt (of_Z (-500)) (of_Z 0)) with false in Hk.
    destruct Hk as [Hout' Hin'].
    split; [by vm_compute|].
    split; [by exists (fundsOut flow)|].
    split; [intros i Hi; by apply Hothers|].
    split; [done|].
    intros ->. cbn [foldl] in Hflow.
    apply zeroFundsFlow_lookup_Some in Hflow as [_ Hzero].
    by rewrite Hout', Hzero.
Qed.

(** A day outside of the window, by less than a year, has the label of no
    bucket. *)
Lemma outside_window_unmatched today day :
  today - 364 <= day < today - 9 \/ today < day <= today + 355 ->
  formatDay day DATE_FORMAT ∉ dayLabels today.
Proof.
  intros Hday Hin. unfold dayLabels in Hin.
  apply list_elem_of_fmap in Hin as (index & Heq & Hindex).
  apply elem_of_seqZ in Hindex. unfold NUMBER_OF_DAYS in Hindex.
  destruct Hday as [Hbefore|Hafter].
  - revert Heq. apply formatDay_distinct. lia.
  - symmetry in Heq. revert Heq. apply formatDay_distinct. lia.
Qed.

(** The returned series read the buckets only. *)
Lemma balanceFundsFlow_series zone endDate dates data data' currency :
  datesArray zone endDate = Return dates ->
  Forall validCreated data -> Forall validCreated data' ->
  foldl (tally zone) (zeroFundsFlow dates) data
  = foldl (tally zone) (zeroFundsFlow dates) data' ->
  exists r r',
    balanceFundsFlow zone endDate data currency = Return r
    /\ balanceFundsFlow zone endDate data' currency = Return r'
    /\ balanceTransactions r = settledOnly data
    /\ balanceTransactions r' = settledOnly data'
    /\ balanceFundsFlowChartData r = balanceFundsFlowChartData r'.
Proof.
  intros Hdates Hdata Hdata' Hm.
  do 2 eexists.
  split; [by apply (balanceFundsFlow_from zone endDate dates)|].
  split; [by apply (balanceFundsFlow_from zone endDate dates)|].
  cbn. by rewrite Hm.
Qed.

(** C5. On a window of valid dates, and among transactions of valid dates,
    a transaction that is neither a hold nor a release and whose formatted
    date matches no bucket, as is the case, in a zone that keeps days, when
    it is dated outside of the ten local days of the window (and less than
    a year away from them: the labels carry no year), leaves fundsIn and
    fundsOut of every day as they were, and is in the returned
    [balanceTransactions]. *)
Theorem unmatched_transaction_retained zone endDate pre t post currency :
  validWindow zone endDate ->
  Forall validCreated (pre ++ t :: post) ->
  isHoldOrRelease (BalanceTransaction.type t) = false ->
  forall dates, datesArray zone (Some endDate) = Return dates ->
  exists label,
    format zone (TimeClip (BalanceTransaction.created t * 1000)) DATE_FORMAT
    = Return label
    /\ (keepsDay zone ->
        let day := localDay zone (BalanceTransaction.created t * 1000) in
        localDay zone endDate - 364 <= day < localDay zone endDate - 9
        \/ localDay zone endDate < day <= localDay zone endDate + 355 ->
        label ∉ dates)
    /\ (label ∉ dates ->
        exists r r',
          balanceFundsFlow zone (Some endDate) (pre ++ t :: post) currency
          = Return r
          /\ balanceFundsFlow zone (Some endDate) (pre ++ post) currency
             = Return r'
          /\ balanceFundsFlowChartData r = balanceFundsFlowChartData r'
          /\ t ∈ balanceTransactions r
          /\ exists kept kept',
              balanceTransactions r = kept ++ t :: kept'
              /\ balanceTransactions r' = kept ++ kept').
Proof.
  intros Hwindow Hall Htype dates Hdates.
  assert (Hvalid : validCreated t).
  { apply Forall_app in Hall as [_ Hall]. by inversion Hall. }
  assert (Hrest : Forall validCreated (pre ++ post)).
  { apply Forall_app in Hall as [Hpre Hpost].
    apply Forall_app. split; [done|]. by inversion Hpost. }
  exists (formattedDate zone t).
  split; [by apply format_created|]. split.
  - intros Hzone day Hday.
    rewrite (datesArray_Return zone endDate Hzone Hwindow) in Hdates.
    injection Hdates as <-. by apply outside_window_unmatched.
  - intros Hlabel.
    destruct (balanceFundsFlow_series zone (Some endDate) dates
                (pre ++ t :: post) (pre ++ post) currency)
      as (r & r' & Hr & Hr' & Hl & Hl' & Hchart); [done | done | done | |].
    { rewrite foldl_tally_middle, tally_absent, <- foldl_app; [done|].
      apply not_elem_of_dom.
      rewrite foldl_tally_dom, zeroFundsFlow_dom, elem_of_list_to_set. done. }
    exists r, r'. split; [done|]. split; [done|]. split; [done|].
    rewrite Hl, Hl'. unfold settledOnly.
    rewrite !filter_app, filter_cons_True by done. split.
    + apply elem_of_app. right. by left.
    + by do 2 eexists.
Qed.

(** C6. Among transactions of valid dates, a transaction that is neither
    a hold nor a release and whose amount is zero fails the test
    [transaction.amount > 0]: in the bucket of its day, which it has when
    it is dated on a local day of the window, it adds
    [Math.abs(0) / 100 = 0] to fundsOut, which changes nothing, so that the
    returned series are those returned without it. *)
Theorem zero_amount_is_outflow_of_zero zone endDate pre t post currency s :
  keepsDay zone -> validWindow zone endDate ->
  Forall validCreated (pre ++ t :: post) ->
  isHoldOrRelease (BalanceTransaction.type t) = false ->
  BalanceTransaction.amount t = S754_zero s ->
  gt (BalanceTransaction.amount t) (of_Z 0) = false
  /\ div (Math_abs (BalanceTransaction.amount t)) (of_Z 100) = zero
  /\ (forall fundsFlowByDate transactionList flow,
        fundsFlowByDate !! formattedDate zone t = Some flow ->
        forEachTransaction zone (fundsFlowByDate, transactionList) t
        = Return (<[formattedDate zone t := addFundsOut zero flow]>
                    fundsFlowByDate,
                  transactionList ++ [t]))
  /\ (forall (k : nat), (k < 10)%nat ->
      localDay zone (BalanceTransaction.created t * 1000)
      = localDay zone endDate - 9 + Z.of_nat k ->
      exists buckets transactionList flow,
        tallied zone (Some endDate) pre = Return (buckets, transactionList)
        /\ buckets !! formattedDate zone t = Some flow
        /\ forEachTransaction zone (buckets, transactionList) t
           = Return (buckets, transactionList ++ [t])
        /\ fundsOut (addFundsOut zero flow) = fundsOut flow)
  /\ exists r r',
      balanceFundsFlow zone (Some endDate) (pre ++ t :: post) currency
      = Return r
      /\ balanceFundsFlow zone (Some endDate) (pre ++ post) currency
         = Return r'
      /\ balanceFundsFlowChartData r = balanceFundsFlowChartData r'.
Proof.
  intros Hzone Hwindow Hall Htype Hzero.
  assert (Hvalid : validCreated t).
  { apply Forall_app in Hall as [_ Hall]. by inversion Hall. }
  assert (Hpre : Forall validCreated pre).
  { by apply Forall_app in Hall as [Hpre _]. }
  assert (Hrest : Forall validCreated (pre ++ post)).
  { apply Forall_app in Hall as [_ Hpost].
    apply Forall_app. split; [done|]. by inversion Hpost. }
  split; [by rewrite Hzero|]. split; [by rewrite Hzero|]. split; [|split].
  - intros m l flow Hflow.
    rewrite forEachTransaction_tally by done. unfold tally, settledOnly.
    rewrite Htype, Hflow, Hzero.
    rewrite gt_zero, div_abs_zero, filter_cons_True by done. done.
  - intros k Hk Hday.
    set (buckets := foldl (tally zone)
                      (zeroFundsFlow (dayLabels (localDay zone endDate))) pre).
    assert (Hnonneg : nonnegFlows buckets)
      by apply foldl_tally_nonneg, zeroFundsFlow_nonneg.
    assert (is_Some (buckets !! formattedDate zone t)) as [flow Hflow].
    { apply elem_of_dom. unfold buckets.
      rewrite foldl_tally_dom, zeroFundsFlow_dom. apply elem_of_list_to_set.
      rewrite (formattedDate_windowLabel zone endDate t k Hday).
      by apply windowLabel_elem_of. }
    exists buckets, (settledOnly pre), flow.
    split; [by apply tallied_Return|]. split; [done|]. split.
    + rewrite forEachTransaction_tally by done.
      rewrite (tally_zero_amount zone buckets t s) by done.
      unfold settledOnly at 2. rewrite filter_cons_True by done. done.
    + destruct (Hnonneg _ _ Hflow) as [_ Hout]. cbn [addFundsOut fundsOut].
      by apply add_zero_r.
  - destruct (balanceFundsFlow_series zone (Some endDate)
                (dayLabels (localDay zone endDate))
                (pre ++ t :: post) (pre ++ post) currency)
      as (r & r' & Hr & Hr' & _ & _ & Hchart);
      [by apply datesArray_Return | done | done | |].
    { rewrite foldl_tally_middle, (tally_zero_amount zone _ t s), <- foldl_app;
        [done | | done].
      apply foldl_tally_nonneg, zeroFundsFlow_nonneg. }
    by exists r, r'.
Qed.

(** *** The clock and the zone *)

Lemma Array_forEach_ext {A S} (f g : S -> A -> outcome S) array state :
  (forall state x, x ∈ array -> f state x = g state x) ->
  Array_forEach f array state = Array_forEach g array state.
Proof.
  revert state. induction array as [|x array IH]; intros state Hext; [done|].
  cbn [Array_forEach]. rewrite Hext by by left.
  destruct (g state x) as [state'|e]; [|done]. cbn [bind].
  apply IH. intros state'' y Hy. apply Hext. by right.
Qed.

(** The callback reads the zone through the local day of the transaction
    only. *)
Lemma forEachTransaction_localDay zone zone'
    (state : gmap string FundsFlowByDate * list BalanceTransaction.t) t :
  localDay zone (BalanceTransaction.created t * 1000)
  = localDay zone' (BalanceTransaction.created t * 1000) ->
  forEachTransaction zone state t = forEachTransaction zone' state t.
Proof.
  intros Hday. unfold forEachTransaction. destruct state as [m l].
  destruct (TimeClip (BalanceTransaction.created t * 1000)) as [time|] eqn:Hdate;
    [|done].
  apply TimeClip_Some in Hdate as [-> _]. cbn [format]. by rewrite Hday.
Qed.

(** The aggregation reads the clock and the zone through the ten labels
    and the local days of the transactions only. *)
Lemma balanceFundsFlow_localDay zone zone' endDate endDate' data currency :
  datesArray zone endDate = datesArray zone' endDate' ->
  (forall t, t ∈ data ->
     localDay zone (BalanceTransaction.created t * 1000)
     = localDay zone' (BalanceTransaction.created t * 1000)) ->
  balanceFundsFlow zone endDate data currency
  = balanceFundsFlow zone' endDate' data currency.
Proof.
  intros Hdates Hdays. unfold balanceFundsFlow. rewrite Hdates.
  destruct (datesArray zone' endDate') as [dates|e]; [|done]. cbn [bind].
  rewrite (Array_forEach_ext (forEachTransaction zone)
             (forEachTransaction zone')); [done|].
  intros state t Ht. by apply forEachTransaction_localDay, Hdays.
Qed.

Lemma datesArray_localDay zone zone' endDate endDate' :
  keepsDay zone -> keepsDay zone' ->
  validWindow zone endDate -> validWindow zone' endDate' ->
  localDay zone endDate = localDay zone' endDate' ->
  datesArray zone (Some endDate) = datesArray zone' (Some endDate').
Proof.
  intros Hzone Hzone' Hwindow Hwindow' Hday.
  by rewrite !datesArray_Return, Hday.
Qed.

(** ** The helpers *)

Section ClockFacts.
Context {Platform World : Type}.
Variable new_Date : @request World Date.
Variable balanceTransactions_list :
  Platform -> ListParams.balanceTransactions -> string ->
  @request World (list BalanceTransaction.t).

(** The listing that [getBalanceTransactions] asks for when it reads
    [endDate] off the clock, in [zone]. *)
Local Abbreviation listing zone stripeAccount endDate :=
  (balanceTransactions_list (platform stripeAccount)
     {| ListParams.created_gte :=
          getTimeInSeconds (addDays zone (Some endDate) (- NUMBER_OF_DAYS + 1));
        ListParams.created_lte := getTimeInSeconds (Some endDate);
        ListParams.limit := 100 |}
     (accountId stripeAccount)).

(** C7. [getBalanceTransactions] takes no end date: it reads the clock,
    once, and its result is the aggregation of the transactions listed at
    the date read, in the time zone of the process. Two calls that read
    the same date and are listed the same transactions in the same zone
    resolve to the same value, whatever the worlds they run in; so do two
    calls whose dates read are on the same local day, with windows of
    valid dates, in zones that keep days and have each transaction listed
    on the same local day. *)
Theorem getBalanceTransactions_deterministic
    zone zone' stripeAccount stripeAccount' currency world world'
    endDate endDate' data world1 world1' world2 world2' :
  new_Date world = (Return (Some endDate), world1) ->
  new_Date world' = (Return (Some endDate'), world1') ->
  listing zone stripeAccount endDate world1 = (Return data, world2) ->
  listing zone' stripeAccount' endDate' world1' = (Return data, world2') ->
  let result :=
    getBalanceTransactions zone new_Date balanceTransactions_list
      stripeAccount currency world in
  let result' :=
    getBalanceTransactions zone' new_Date balanceTransactions_list
      stripeAccount' currency world' in
  result = (balanceFundsFlow zone (Some endDate) data currency, world2)
  /\ result' = (balanceFundsFlow zone' (Some endDate') data currency, world2')
  /\ (zone = zone' -> endDate = endDate' -> result.1 = result'.1)
  /\ (keepsDay zone -> keepsDay zone' ->
      validWindow zone endDate -> validWindow zone' endDate' ->
      localDay zone endDate = localDay zone' endDate' ->
      (forall t, t ∈ data ->
         localDay zone (BalanceTransaction.created t * 1000)
         = localDay zone' (BalanceTransaction.created t * 1000)) ->
      result.1 = result'.1).
Proof.
  intros Hdate Hdate' Hlist Hlist' result result'.
  assert (Hresult : result
                    = (balanceFundsFlow zone (Some endDate) data currency,
                       world2)).
  { unfold result, getBalanceTransactions, await, settle.
    rewrite Hdate. cbn zeta. by rewrite Hlist. }
  assert (Hresult' : result'
                     = (balanceFundsFlow zone' (Some endDate') data currency,
                        world2')).
  { unfold result', getBalanceTransactions, await, settle.
    rewrite Hdate'. cbn zeta. by rewrite Hlist'. }
  split; [done|]. split; [done|]. rewrite Hresult, Hresult'. cbn [fst].
  split.
  - by intros -> ->.
  - intros Hzone Hzone' Hwindow Hwindow' Hday Hdays.
    apply balanceFundsFlow_localDay; [|done].
    by apply datesArray_localDay.
Qed.
End ClockFacts.

Section HelperFacts.
Context {Platform Card World : Type}.
Variable issuing_authorizations_list :
  Platform -> ListParams.authorizations -> string ->
  @request World (list Authorization.t).
Variable issuing_cards_retrieve :
  Platform -> string -> list string -> string -> @request World Card.

Lemma foldl_forEachAuthorization current_spend authorizations :
  foldl forEachAuthorization current_spend authorizations
  = foldl add current_spend
      (Authorization.amount <$> approvedOnly authorizations).
Proof.
  revert current_spend.
  induction authorizations as [|a authorizations IH]; intros current_spend;
    [done|].
  cbn [foldl]. rewrite IH. unfold approvedOnly, forEachAuthorization.
  destruct (Authorization.approved a) eqn:Happroved.
  - by rewrite filter_cons_True by done.
  - by rewrite filter_cons_False by congruence.
Qed.

(** C9. When the listing of the authorizations and the retrieval of the
    card resolve, [getCardDetails] resolves, to the authorizations
    listed and to a [current_spend] that is the sum of the amounts of
    the approved ones among them, added in their order from 0; one that
    is not approved leaves the total as it is without it. *)
Theorem getCardDetails_current_spend stripeAccount cardId world :
  (forall data card world1 world2,
     issuing_authorizations_list (platform stripeAccount)
       {| ListParams.card := cardId; ListParams.authorizations_limit := 10 |}
       (accountId stripeAccount) world
     = (Return data, world1) ->
     issuing_cards_retrieve (platform stripeAccount) cardId ["cardholder"]
       (accountId stripeAccount) world1
     = (Return card, world2) ->
     getCardDetails issuing_authorizations_list issuing_cards_retrieve
       stripeAccount cardId world
     = (Return {| card_authorizations := data;
                  current_spend :=
                    sum (Authorization.amount <$> approvedOnly data);
                  card_details := card |},
        world2))
  /\ (forall r world',
        getCardDetails issuing_authorizations_list issuing_cards_retrieve
          stripeAccount cardId world
        = (Return r, world') ->
        current_spend r
        = sum (Authorization.amount <$> approvedOnly (card_authorizations r)))
  /\ (forall before a after,
        Authorization.approved a = false ->
        foldl forEachAuthorization zero (before ++ a :: after)
        = foldl forEachAuthorization zero (before ++ after)).
Proof.
  split; [|split].
  - intros data card world1 world2 Hlist Hcard.
    unfold getCardDetails, await, resolve. rewrite Hlist, Hcard.
    by rewrite foldl_forEachAuthorization.
  - intros r world'. unfold getCardDetails, await, resolve.
    destruct (issuing_authorizations_list _ _ _ _) as [[data|e] world1];
      [|done].
    destruct (issuing_cards_retrieve _ _ _ _ _) as [[card|e] world2];
      [|done].
    intros [= <- _]. cbn. apply foldl_forEachAuthorization.
  - intros before a after Happroved.
    rewrite !foldl_app. cbn [foldl]. unfold forEachAuthorization at 2.
    by rewrite Happroved.
Qed.
End HelperFacts.

(** C8. [getBankTransferType] returns for every country: gb_bank_transfer
    for GB, us_bank_transfer for US, and eu_bank_transfer for any other
    string. *)
Theorem getBankTransferType_cases country :
  getBankTransferType "GB" = "gb_bank_transfer"
  /\ getBankTransferType "US" = "us_bank_transfer"
  /\ (country <> "GB" -> country <> "US" ->
      getBankTransferType country = "eu_bank_transfer")
  /\ getBankTransferType country
     ∈ ["gb_bank_transfer"; "us_bank_transfer"; "eu_bank_transfer"].
Proof.
  unfold getBankTransferType.
  split; [done|]. split; [done|]. split.
  - intros HGB HUS.
    destruct (String.eqb_spec country "GB"); [done|].
    by destruct (String.eqb_spec country "US").
  - destruct (String.eqb country "GB"); [set_solver|].
    destruct (String.eqb country "US"); set_solver.
Qed.

Section StripeAuthenticationFacts.
Context {Platform : Type} `{EqDecision Platform}.
Variables Platform_UK Platform_EU Platform_US : Platform.
Variable toString : Platform -> string.

(** C10. [getStripeSecretKey] throws for a platform that is none of UK,
    EU and US. For each of these it returns: the value of the variable
    STRIPE_SECRET_KEY_UK, _EU or _US of the environment, that of the first
    member the platform is equal to, or null when the variable is unset
    or empty. *)
Theorem getStripeSecretKey_cases process_env platform :
  let getStripeSecretKey :=
    getStripeSecretKey Platform_UK Platform_EU Platform_US toString
      process_env in
  let read (name : string) : option string :=
    match process_env !! name with
    | None => None
    | Some value => if decide (value = "") then None else Some value
    end in
  (platform <> Platform_UK -> platform <> Platform_EU ->
   platform <> Platform_US ->
   getStripeSecretKey platform
   = Throw ("Unsupported platform: " +:+ toString platform))
  /\ (platform = Platform_UK ->
      getStripeSecretKey platform = Return (read "STRIPE_SECRET_KEY_UK"))
  /\ (platform <> Platform_UK -> platform = Platform_EU ->
      getStripeSecretKey platform = Return (read "STRIPE_SECRET_KEY_EU"))
  /\ (platform <> Platform_UK -> platform <> Platform_EU ->
      platform = Platform_US ->
      getStripeSecretKey platform = Return (read "STRIPE_SECRET_KEY_US"))
  /\ (platform = Platform_UK \/ platform = Platform_EU
      \/ platform = Platform_US ->
      exists key, getStripeSecretKey platform = Return key
                  /\ key <> Some "").
Proof.
  assert (HorNull : forall key,
            orNull key
            = match key with
              | None => None
              | Some value => if decide (value = "") then None else Some value
              end).
  { intros [[|c value]|]; done. }
  assert (Hnonempty : forall key, orNull key <> Some "").
  { intros [[|c value]|]; done. }
  cbn zeta. unfold getStripeSecretKey.
  split; [|split; [|split; [|split]]].
  - intros HUK HEU HUS. by rewrite !decide_False by done.
  - intros HUK. rewrite decide_True by done. cbn. by rewrite HorNull.
  - intros HUK HEU. rewrite decide_False, decide_True by done. cbn.
    by rewrite HorNull.
  - intros HUK HEU HUS.
    rewrite !decide_False, decide_True by done. cbn. by rewrite HorNull.
  - intros Hsupported.
    destruct (decide (platform = Platform_UK)); [by eexists|].
    destruct (decide (platform = Platform_EU)); [by eexists|].
    destruct (decide (platform = Platform_US)); [by eexists|].
    by destruct Hsupported as [?|[?|?]].
Qed.
End StripeAuthenticationFacts.

(** * The functions at work on the sample data *)

(** ** Zones and windows *)

Lemma fixedOffset_validWindow tz endDate :
  - maxTime + 9 * msPerDay <= endDate <= maxTime ->
  validWindow (fixedOffset tz) endDate.
Proof.
  unfold maxTime, msPerDay. intros HendDate. split.
  - unfold validTime, maxTime. lia.
  - intros index Hindex. unfold NUMBER_OF_DAYS in Hindex.
    rewrite fixedOffset_addDays. destruct (- index =? 0); [by eexists|].
    rewrite TimeClip_valid; [by eexists|].
    unfold validTime, maxTime, msPerDay. lia.
Qed.

Lemma utc_validWindow : validWindow Sample.utc Sample.endDate.
Proof.
  apply fixedOffset_validWindow.
  unfold maxTime, msPerDay, Sample.endDate. lia.
Qed.

Lemma newYork_keepsDay : keepsDay Sample.newYork.
Proof.
  intros local. unfold localDay, LocalTime, UTC, msPerDay.
  cbn [offsetAt offsetOfLocal Sample.newYork].
  destruct (Z.ltb_spec local 1710039600000);
    match goal with |- context [if ?x <? ?y then _ else _] =>
                      destruct (Z.ltb_spec x y) end;
    Z.div_mod_to_equations; lia.
Qed.

Lemma newYork_dayMonotone : dayMonotone Sample.newYork.
Proof.
  intros time time' Hle. unfold localDay, LocalTime, msPerDay.
  cbn [offsetAt Sample.newYork].
  apply Z.div_le_mono; [done|].
  destruct (Z.ltb_spec time 1710054000000),
           (Z.ltb_spec time' 1710054000000); lia.
Qed.

Lemma newYork_wholeSeconds : wholeSeconds Sample.newYork.
Proof.
  intros time. unfold localDay, LocalTime, msPerDay.
  cbn [offsetAt Sample.newYork].
  destruct (Z.ltb_spec (time / 1000 * 1000) 1710054000000),
           (Z.ltb_spec time 1710054000000);
    Z.div_mod_to_equations; lia.
Qed.

Lemma newYork_validWindow : validWindow Sample.newYork Sample.noonInMarch.
Proof.
  split.
  - unfold validTime, maxTime, Sample.noonInMarch. lia.
  - intros index Hindex. unfold NUMBER_OF_DAYS in Hindex. unfold addDays.
    destruct (- index =? 0); [by eexists|].
    rewrite TimeClip_valid; [by eexists|].
    unfold validTime, maxTime, UTC, LocalTime, msPerDay, Sample.noonInMarch.
    cbn [offsetAt offsetOfLocal Sample.newYork].
    repeat match goal with |- context [if ?x <? ?y then _ else _] =>
                             destruct (Z.ltb_spec x y) end; lia.
Qed.

(** ** Dates *)

Example format_epoch : format Sample.utc (TimeClip 0) "MMM dd" = Return "Jan 01".
Proof. reflexivity. Qed.

(* 2000-02-29T12:00:00Z *)
Example format_leap_day :
  format Sample.utc (TimeClip 951825600000) "MMM dd" = Return "Feb 29".
Proof. reflexivity. Qed.

(* 2024-12-31T23:30:00Z is already Jan 01 one hour east of Greenwich. *)
Example format_new_year_east :
  format (fixedOffset 3600000) (TimeClip 1735687800000) "MMM dd"
  = Return "Jan 01".
Proof. reflexivity. Qed.

Example format_before_epoch :
  format Sample.utc (TimeClip (-1)) "MMM dd" = Return "Dec 31".
Proof. reflexivity. Qed.

(* 2023-03-01, the day after a 28th of February. *)
Example format_march_first :
  format Sample.utc (TimeClip 1677628800000) "MMM dd" = Return "Mar 01".
Proof. reflexivity. Qed.

(* 2100-02-28 is followed by 2100-03-01: 2100 is not a leap year. *)
Example format_2100 :
  format Sample.utc (TimeClip 4107456000000) "MMM dd" = Return "Feb 28" /\
  format Sample.utc (addDays Sample.utc (TimeClip 4107456000000) 1) "MMM dd"
  = Return "Mar 01".
Proof. split; reflexivity. Qed.

(* The last valid date is +275760-09-13T00:00:00Z; a millisecond later
   there is none. *)
Example format_last_date :
  format Sample.utc (TimeClip 8640000000000000) "MMM dd" = Return "Sep 13"
  /\ format Sample.utc (TimeClip 8640000000000001) "MMM dd"
     = Throw "RangeError: Invalid time value"
  /\ format Sample.utc (addDays Sample.utc (TimeClip 8640000000000000) 1)
       "MMM dd"
     = Throw "RangeError: Invalid time value".
Proof. repeat split; reflexivity. Qed.

(* Nine days before noon on the 15th of March 2024 in New York is noon on
   the 6th, which is 17:00 UTC and not 16:00 UTC: the clocks were set an hour
   forward in between. *)
Example addDays_across_daylight_saving :
  addDays Sample.newYork (Some Sample.noonInMarch) (-9)
  = Some 1709744400000
  /\ addDays Sample.utc (Some Sample.noonInMarch) (-9) = Some 1709740800000.
Proof. split; reflexivity. Qed.

(* 2024-03-10T06:59:59Z is 01:59:59 in New York and a second later it is
   03:00:00; 02:30 of that day is read as 07:30 UTC. *)
Example newYork_transition :
  LocalTime Sample.newYork 1710053999000 = 1710035999000
  /\ LocalTime Sample.newYork 1710054000000 = 1710039600000
  /\ UTC Sample.newYork 1710037800000 = 1710055800000.
Proof. repeat split; reflexivity. Qed.

(** ** The aggregation *)

Example balanceFundsFlow_sample :
  balanceFundsFlow Sample.utc (Some Sample.endDate)
    [Sample.charge; Sample.hold; Sample.payout] "usd"
  = Return
      {| balanceTransactions := [Sample.charge; Sample.payout];
         balanceFundsFlowChartData :=
           {| currency := "usd";
              balanceTransactionsDates :=
                ["Dec 22"; "Dec 23"; "Dec 24"; "Dec 25"; "Dec 26";
                 "Dec 27"; "Dec 28"; "Dec 29"; "Dec 30"; "Dec 31"];
              balanceTransactionsFundsIn :=
                replicate 9 zero ++ [div (of_Z 21) (of_Z 2)];
              balanceTransactionsFundsOut :=
                of_Z 5 :: replicate 9 zero |} |}.
Proof. by vm_compute. Qed.

(** In New York at noon on the 15th of March 2024, the listing is asked
    for from 17:00 UTC on the 6th, and a charge made at 23:30 on the 9th,
    local time, is charted on the 9th. *)
Example getBalanceTransactions_across_daylight_saving :
  getBalanceTransactions Sample.newYork Sample.clockInMarch Sample.listInMarch
    (Sample.account "acct_1") "usd" []
  = (Return
       {| balanceTransactions := [Sample.chargeBeforeDaylightSaving];
          balanceFundsFlowChartData :=
            {| currency := "usd";
               balanceTransactionsDates :=
                 ["Mar 06"; "Mar 07"; "Mar 08"; "Mar 09"; "Mar 10";
                  "Mar 11"; "Mar 12"; "Mar 13"; "Mar 14"; "Mar 15"];
               balanceTransactionsFundsIn :=
                 replicate 3 zero ++ [div (of_Z 21) (of_Z 2)]
                 ++ replicate 6 zero;
               balanceTransactionsFundsOut := replicate 10 zero |} |},
     [{| ListParams.created_gte := Some 1709744400;
         ListParams.created_lte := Some 1710518400;
         ListParams.limit := 100 |}]).
Proof. by vm_compute. Qed.

Ltac valid_dates :=
  repeat constructor; unfold validCreated, validTime, maxTime; cbn; lia.

Lemma balanceFundsFlow_ten_buckets_witness :
  keepsDay Sample.utc /\ validWindow Sample.utc Sample.endDate
  /\ Forall validCreated [Sample.charge]
  /\ exists r,
      balanceFundsFlow Sample.utc (Some Sample.endDate) [Sample.charge] "usd"
      = Return r
      /\ balanceTransactionsFundsIn (balanceFundsFlowChartData r) !! 0%nat
         = Some zero
      /\ balanceTransactionsFundsOut (balanceFundsFlowChartData r) !! 0%nat
         = Some zero.
Proof.
  assert (Hdata : Forall validCreated [Sample.charge]) by valid_dates.
  split; [apply fixedOffset_keepsDay|]. split; [apply utc_validWindow|].
  split; [exact Hdata|].
  destruct (balanceFundsFlow_ten_buckets Sample.utc Sample.endDate
              [Sample.charge] "usd" (fixedOffset_keepsDay 0) utc_validWindow
              Hdata)
    as (buckets & l & r & _ & Hr & _ & _ & _ & _ & Hdays & _).
  exists r. split; [exact Hr|].
  destruct (Hdays 0%nat ltac:(lia)) as (_ & _ & _ & _ & _ & Hzero).
  apply Hzero. intros t Ht _. apply list_elem_of_singleton in Ht. subst t.
  vm_compute. discriminate.
Defined.

(** A hold of invalid date among the transactions listed: the call is
    rejected, where it returns without the hold. *)
Lemma hold_out_of_range_rejected :
  BalanceTransaction.type Sample.holdOutOfRange = "issuing_authorization_hold"
  /\ balanceFundsFlow Sample.utc (Some Sample.endDate)
       ([Sample.charge] ++ Sample.holdOutOfRange :: [Sample.payout]) "usd"
     = Throw "RangeError: Invalid time value"
  /\ balanceFundsFlow Sample.utc (Some Sample.endDate)
       ([Sample.charge] ++ [Sample.payout]) "usd"
     = Return
         {| balanceTransactions := [Sample.charge; Sample.payout];
            balanceFundsFlowChartData :=
              {| currency := "usd";
                 balanceTransactionsDates :=
                   ["Dec 22"; "Dec 23"; "Dec 24"; "Dec 25"; "Dec 26";
                    "Dec 27"; "Dec 28"; "Dec 29"; "Dec 30"; "Dec 31"];
                 balanceTransactionsFundsIn :=
                   replicate 9 zero ++ [div (of_Z 21) (of_Z 2)];
                 balanceTransactionsFundsOut :=
                   of_Z 5 :: replicate 9 zero |} |}.
Proof. by vm_compute. Qed.

Lemma hold_or_release_ignored_witness :
  (BalanceTransaction.type Sample.hold = "issuing_authorization_release"
   \/ BalanceTransaction.type Sample.hold = "issuing_authorization_hold")
  /\ validCreated Sample.hold
  /\ balanceFundsFlow Sample.utc (Some Sample.endDate)
       ([Sample.charge] ++ Sample.hold :: [Sample.payout]) "usd"
     = balanceFundsFlow Sample.utc (Some Sample.endDate)
         ([Sample.charge] ++ [Sample.payout]) "usd".
Proof.
  assert (Hvalid : validCreated Sample.hold)
    by (unfold validCreated, validTime, maxTime; cbn; lia).
  split; [by right|]. split; [exact Hvalid|].
  apply (proj1 (hold_or_release_ignored Sample.utc (Some Sample.endDate)
                  [Sample.charge] Sample.hold [Sample.payout] "usd"
                  (or_intror eq_refl)) Hvalid).
Defined.

Lemma series_parallel_ascending_witness :
  keepsDay Sample.utc /\ validWindow Sample.utc Sample.endDate
  /\ Forall validCreated [Sample.charge]
  /\ exists r,
      balanceFundsFlow Sample.utc (Some Sample.endDate) [Sample.charge] "usd"
      = Return r
      /\ balanceTransactionsDates (balanceFundsFlowChartData r) !! 0%nat
         = Some "Dec 22"
      /\ balanceTransactionsDates (balanceFundsFlowChartData r) !! 9%nat
         = Some "Dec 31".
Proof.
  assert (Hdata : Forall validCreated [Sample.charge]) by valid_dates.
  split; [apply fixedOffset_keepsDay|]. split; [apply utc_validWindow|].
  split; [exact Hdata|].
  destruct (series_parallel_ascending Sample.utc Sample.endDate
              [Sample.charge] "usd" (fixedOffset_keepsDay 0) utc_validWindow
              Hdata)
    as (dates & buckets & l & r & _ & _ & Hr & _ & _ & _ & _ & Hdates & _).
  exists r. split; [exact Hr|]. split.
  - destruct (Hdates 0%nat ltac:(lia)) as (time & _ & Hday & Hlabel).
    rewrite Hlabel, Hday. reflexivity.
  - destruct (Hdates 9%nat ltac:(lia)) as (time & _ & Hday & Hlabel).
    rewrite Hlabel, Hday. reflexivity.
Defined.

Lemma amount_conversion_witness :
  keepsDay Sample.utc /\ validWindow Sample.utc Sample.endDate
  /\ (validCreated Sample.charge
      /\ isHoldOrRelease (BalanceTransaction.type Sample.charge) = false
      /\ BalanceTransaction.amount Sample.charge = of_Z 1050
      /\ localDay Sample.utc (BalanceTransaction.created Sample.charge * 1000)
         = localDay Sample.utc Sample.endDate
      /\ exists r',
          balanceFundsFlow Sample.utc (Some Sample.endDate)
            ([] ++ [Sample.charge]) "usd"
          = Return r'
          /\ balanceTransactionsFundsIn (balanceFundsFlowChartData r') !! 9%nat
             = Some (div (of_Z 21) (of_Z 2)))
  /\ (validCreated Sample.payout
      /\ isHoldOrRelease (BalanceTransaction.type Sample.payout) = false
      /\ BalanceTransaction.amount Sample.payout = of_Z (-500)
      /\ localDay Sample.utc (BalanceTransaction.created Sample.payout * 1000)
         = localDay Sample.utc Sample.endDate - 9
      /\ exists r',
          balanceFundsFlow Sample.utc (Some Sample.endDate)
            ([] ++ [Sample.payout]) "usd"
          = Return r'
          /\ balanceTransactionsFundsOut (balanceFundsFlowChartData r') !! 0%nat
             = Some (of_Z 5)).
Proof.
  assert (Hcharge : validCreated Sample.charge)
    by (unfold validCreated, validTime, maxTime; cbn; lia).
  assert (Hpayout : validCreated Sample.payout)
    by (unfold validCreated, validTime, maxTime; cbn; lia).
  split; [apply fixedOffset_keepsDay|]. split; [apply utc_validWindow|].
  split.
  - split; [exact Hcharge|]. do 3 (split; [reflexivity|]).
    destruct (proj1 (amount_conversion Sample.utc Sample.endDate []
                       Sample.charge "usd" (fixedOffset_keepsDay 0)
                       utc_validWindow (Forall_nil_2 _) Hcharge eq_refl)
                eq_refl eq_refl)
      as (r & r' & _ & Hr' & _ & _ & _ & _ & Hvalue).
    exists r'. split; [exact Hr'|]. exact (Hvalue eq_refl).
  - split; [exact Hpayout|]. do 3 (split; [reflexivity|]).
    destruct (proj2 (amount_conversion Sample.utc Sample.endDate []
                       Sample.payout "usd" (fixedOffset_keepsDay 0)
                       utc_validWindow (Forall_nil_2 _) Hpayout eq_refl)
                eq_refl eq_refl)
      as (r & r' & _ & Hr' & _ & _ & _ & _ & Hvalue).
    exists r'. split; [exact Hr'|]. exact (Hvalue eq_refl).
Defined.

Lemma unmatched_transaction_retained_witness :
  validWindow Sample.utc Sample.endDate
  /\ Forall validCreated
       ([Sample.charge] ++ Sample.chargeOfJune :: [Sample.payout])
  /\ isHoldOrRelease (BalanceTransaction.type Sample.chargeOfJune) = false
  /\ localDay Sample.utc
       (BalanceTransaction.created Sample.chargeOfJune * 1000)
     = localDay Sample.utc Sample.endDate - 199
  /\ exists r r',
      balanceFundsFlow Sample.utc (Some Sample.endDate)
        ([Sample.charge] ++ Sample.chargeOfJune :: [Sample.payout]) "usd"
      = Return r
      /\ balanceFundsFlow Sample.utc (Some Sample.endDate)
           ([Sample.charge] ++ [Sample.payout]) "usd"
         = Return r'
      /\ balanceFundsFlowChartData r = balanceFundsFlowChartData r'
      /\ Sample.chargeOfJune ∈ balanceTransactions r.
Proof.
  assert (Hdata : Forall validCreated
                    ([Sample.charge] ++ Sample.chargeOfJune :: [Sample.payout]))
    by valid_dates.
  assert (Hday : localDay Sample.utc
                   (BalanceTransaction.created Sample.chargeOfJune * 1000)
                 = localDay Sample.utc Sample.endDate - 199) by reflexivity.
  split; [apply utc_validWindow|]. split; [exact Hdata|].
  split; [reflexivity|]. split; [exact Hday|].
  destruct (unmatched_transaction_retained Sample.utc Sample.endDate
              [Sample.charge] Sample.chargeOfJune [Sample.payout] "usd"
              utc_validWindow Hdata eq_refl
              (dayLabels (localDay Sample.utc Sample.endDate))
              (datesArray_Return Sample.utc Sample.endDate
                 (fixedOffset_keepsDay 0) utc_validWindow))
    as (label & _ & Houtside & Hretained).
  destruct Hretained as (r & r' & Hr & Hr' & Hchart & Hin & _).
  { apply Houtside; [apply fixedOffset_keepsDay|]. left. rewrite Hday. lia. }
  exists r, r'. split; [exact Hr|]. split; [exact Hr'|].
  split; [exact Hchart | exact Hin].
Defined.

(** The labels carry no year: a charge made 366 days before [endDate] has
    the label of the last day of the window, and is counted there. *)
Example label_of_last_year :
  localDay Sample.utc
    (BalanceTransaction.created Sample.chargeOfLastYear * 1000)
  = localDay Sample.utc Sample.endDate - 366
  /\ formattedDate Sample.utc Sample.chargeOfLastYear = "Dec 31"
  /\ balanceFundsFlow Sample.utc (Some Sample.endDate)
       [Sample.chargeOfLastYear] "usd"
     = Return
         {| balanceTransactions := [Sample.chargeOfLastYear];
            balanceFundsFlowChartData :=
              {| currency := "usd";
                 balanceTransactionsDates :=
                   ["Dec 22"; "Dec 23"; "Dec 24"; "Dec 25"; "Dec 26";
                    "Dec 27"; "Dec 28"; "Dec 29"; "Dec 30"; "Dec 31"];
                 balanceTransactionsFundsIn :=
                   replicate 9 zero ++ [div (of_Z 21) (of_Z 2)];
                 balanceTransactionsFundsOut := replicate 10 zero |} |}.
Proof. by vm_compute. Qed.

Lemma zero_amount_is_outflow_of_zero_witness :
  keepsDay Sample.utc /\ validWindow Sample.utc Sample.endDate
  /\ Forall validCreated
       ([Sample.charge] ++ Sample.freeOfCharge :: [Sample.payout])
  /\ isHoldOrRelease (BalanceTransaction.type Sample.freeOfCharge) = false
  /\ BalanceTransaction.amount Sample.freeOfCharge = S754_zero false
  /\ exists r r',
      balanceFundsFlow Sample.utc (Some Sample.endDate)
        ([Sample.charge] ++ Sample.freeOfCharge :: [Sample.payout]) "usd"
      = Return r
      /\ balanceFundsFlow Sample.utc (Some Sample.endDate)
           ([Sample.charge] ++ [Sample.payout]) "usd"
         = Return r'
      /\ balanceFundsFlowChartData r = balanceFundsFlowChartData r'.
Proof.
  assert (Hdata : Forall validCreated
                    ([Sample.charge] ++ Sample.freeOfCharge :: [Sample.payout]))
    by valid_dates.
  split; [apply fixedOffset_keepsDay|]. split; [apply utc_validWindow|].
  split; [exact Hdata|]. do 2 (split; [reflexivity|]).
  apply (zero_amount_is_outflow_of_zero Sample.utc Sample.endDate
           [Sample.charge] Sample.freeOfCharge [Sample.payout] "usd" false
           (fixedOffset_keepsDay 0) utc_validWindow Hdata eq_refl eq_refl).
Defined.

(** The same clock and the same listing in two zones: a charge made at
    2024-03-10T04:30:00Z is charted on the 10th of March in UTC, and on the
    9th in New York. *)
Lemma time_zone_changes_result :
  (getBalanceTransactions Sample.utc Sample.clockInMarch Sample.listInMarch
     (Sample.account "acct_1") "usd" []).1
  = Return
      {| balanceTransactions := [Sample.chargeBeforeDaylightSaving];
         balanceFundsFlowChartData :=
           {| currency := "usd";
              balanceTransactionsDates :=
                ["Mar 06"; "Mar 07"; "Mar 08"; "Mar 09"; "Mar 10";
                 "Mar 11"; "Mar 12"; "Mar 13"; "Mar 14"; "Mar 15"];
              balanceTransactionsFundsIn :=
                replicate 4 zero ++ [div (of_Z 21) (of_Z 2)]
                ++ replicate 5 zero;
              balanceTransactionsFundsOut := replicate 10 zero |} |}
  /\ (getBalanceTransactions Sample.newYork Sample.clockInMarch
        Sample.listInMarch (Sample.account "acct_1") "usd" []).1
     = Return
         {| balanceTransactions := [Sample.chargeBeforeDaylightSaving];
            balanceFundsFlowChartData :=
              {| currency := "usd";
                 balanceTransactionsDates :=
                   ["Mar 06"; "Mar 07"; "Mar 08"; "Mar 09"; "Mar 10";
                    "Mar 11"; "Mar 12"; "Mar 13"; "Mar 14"; "Mar 15"];
                 balanceTransactionsFundsIn :=
                   replicate 3 zero ++ [div (of_Z 21) (of_Z 2)]
                   ++ replicate 6 zero;
                 balanceTransactionsFundsOut := replicate 10 zero |} |}
  /\ (getBalanceTransactions Sample.utc Sample.clockInMarch Sample.listInMarch
        (Sample.account "acct_1") "usd" []).1
     <> (getBalanceTransactions Sample.newYork Sample.clockInMarch
           Sample.listInMarch (Sample.account "acct_1") "usd" []).1.
Proof. split; [by vm_compute|]. split; by vm_compute. Qed.

Lemma getBalanceTransactions_deterministic_witness :
  Sample.clock 0%nat = (Return (Some Sample.endDate), 1%nat)
  /\ Sample.clock 5%nat = (Return (Some Sample.endDate), 6%nat)
  /\ keepsDay Sample.utc /\ validWindow Sample.utc Sample.endDate
  /\ (getBalanceTransactions Sample.utc Sample.clock
        Sample.listBalanceTransactions (Sample.account "acct_1") "usd"
        0%nat).1
     = (getBalanceTransactions Sample.utc Sample.clock
          Sample.listBalanceTransactions (Sample.account "acct_2") "usd"
          5%nat).1.
Proof.
  do 2 (split; [reflexivity|]).
  split; [apply fixedOffset_keepsDay|]. split; [apply utc_validWindow|].
  apply (getBalanceTransactions_deterministic Sample.clock
           Sample.listBalanceTransactions Sample.utc Sample.utc
           (Sample.account "acct_1") (Sample.account "acct_2") "usd"
           0%nat 5%nat Sample.endDate Sample.endDate
           [Sample.charge; Sample.hold; Sample.payout]
           1%nat 6%nat 2%nat 7%nat eq_refl eq_refl eq_refl eq_refl);
    [apply fixedOffset_keepsDay | apply fixedOffset_keepsDay
     | apply utc_validWindow | apply utc_validWindow
     | reflexivity | reflexivity].
Defined.

Lemma getCardDetails_current_spend_witness :
  getCardDetails Sample.listAuthorizations Sample.retrieveCard
    (Sample.account "acct_1") "ic_1" 0%nat
  = (Return
       {| card_authorizations :=
            [Sample.approved 1200; Sample.declined 5000; Sample.approved 300];
          current_spend := of_Z 1500;
          card_details := "ic_1" |},
     2%nat).
Proof.
  apply (proj1 (getCardDetails_current_spend Sample.listAuthorizations
                  Sample.retrieveCard (Sample.account "acct_1") "ic_1" 0%nat)
           [Sample.approved 1200; Sample.declined 5000; Sample.approved 300]
           "ic_1" 1%nat 2%nat eq_refl eq_refl).
Defined.

Lemma getBankTransferType_cases_witness :
  "DE" <> "GB" /\ "DE" <> "US"
  /\ getBankTransferType "DE" = "eu_bank_transfer".
Proof.
  assert (HGB : "DE" <> "GB") by discriminate.
  assert (HUS : "DE" <> "US") by discriminate.
  split; [exact HGB|]. split; [exact HUS|].
  exact (proj1 (proj2 (proj2 (getBankTransferType_cases "DE"))) HGB HUS).
Defined.

Lemma getStripeSecretKey_cases_witness :
  let process_env : gmap string string :=
    {[ "STRIPE_SECRET_KEY_US" := "sk_test_us"; "STRIPE_SECRET_KEY_EU" := "" ]}
  in
  getStripeSecretKey "uk" "eu" "us" id process_env "jp"
  = Throw "Unsupported platform: jp"
  /\ getStripeSecretKey "uk" "eu" "us" id process_env "us"
     = Return (Some "sk_test_us")
  /\ getStripeSecretKey "uk" "eu" "us" id process_env "eu" = Return None
  /\ getStripeSecretKey "uk" "eu" "us" id process_env "uk" = Return None.
Proof.
  intros process_env.
  assert (Hjp : "jp" <> "uk" /\ "jp" <> "eu" /\ "jp" <> "us")
    by (repeat split; discriminate).
  assert (Hus : "us" <> "uk" /\ "us" <> "eu") by (split; discriminate).
  assert (Heu : "eu" <> "uk") by discriminate.
  destruct Hjp as (Hjp1 & Hjp2 & Hjp3). destruct Hus as (Hus1 & Hus2).
  split; [|split; [|split]].
  - exact (proj1 (getStripeSecretKey_cases "uk" "eu" "us" id process_env "jp")
             Hjp1 Hjp2 Hjp3).
  - exact (proj1 (proj2 (proj2 (proj2
             (getStripeSecretKey_cases "uk" "eu" "us" id process_env "us"))))
             Hus1 Hus2 eq_refl).
  - exact (proj1 (proj2 (proj2
             (getStripeSecretKey_cases "uk" "eu" "us" id process_env "eu")))
             Heu eq_refl).
  - exact (proj1 (proj2
             (getStripeSecretKey_cases "uk" "eu" "us" id process_env "uk"))
             eq_refl).
Defined.

(** * Further properties *)

(** ** What a day's amounts add up to *)

Section DailyTotalsFacts.
Variable zone : Zone.
Implicit Types (m : gmap string FundsFlowByDate).
Implicit Types (t : BalanceTransaction.t) (data : list BalanceTransaction.t).

Lemma tally_not_settledOn m t label :
  settledOn zone label t = false -> tally zone m t !! label = m !! label.
Proof.
  unfold settledOn. intros Hnot.
  destruct (isHoldOrRelease (BalanceTransaction.type t)) eqn:Htype.
  - by rewrite tally_hold.
  - apply tally_other. intros ->. cbn in Hnot.
    by rewrite String.eqb_refl in Hnot.
Qed.

Lemma tally_settledOn m t label flow :
  settledOn zone label t = true -> m !! label = Some flow ->
  tally zone m t !! label
  = Some (if gt (BalanceTransaction.amount t) (of_Z 0)
          then addFundsIn (inMajorUnits t) flow
          else addFundsOut (inMajorUnits t) flow).
Proof.
  unfold settledOn. intros Hon Hflow.
  apply andb_prop in Hon as [Htype Hlabel].
  apply negb_true_iff in Htype. apply String.eqb_eq in Hlabel.
  unfold tally. rewrite Htype, Hlabel, Hflow. cbn zeta.
  destruct (gt _ _); by rewrite lookup_insert_eq.
Qed.

(** The bucket of [label] after the transactions of [data]: to each of its
    amounts were added, in order, those of the transactions that count. *)
Lemma foldl_tally_totals data m label flow :
  m !! label = Some flow ->
  exists flow',
    foldl (tally zone) m data !! label = Some flow'
    /\ fundsIn flow'
       = foldl add (fundsIn flow)
           (inMajorUnits
              <$> filter (fun t => countsIn zone label t = true) data)
    /\ fundsOut flow'
       = foldl add (fundsOut flow)
           (inMajorUnits
              <$> filter (fun t => countsOut zone label t = true) data).
Proof.
  revert m flow. induction data as [|t data IH]; intros m flow Hflow.
  { by exists flow. }
  cbn [foldl]. unfold countsIn, countsOut in *.
  destruct (settledOn zone label t) eqn:Hon.
  - pose proof (tally_settledOn m t label flow Hon Hflow) as Hstep.
    destruct (gt (BalanceTransaction.amount t) (of_Z 0)) eqn:Hgt.
    + destruct (IH _ _ Hstep) as (flow' & Hflow' & Hin & Hout).
      exists flow'. split; [done|].
      rewrite filter_cons_True by (by rewrite Hon, Hgt).
      rewrite (filter_cons_False _ t) by (by rewrite Hon, Hgt).
      by rewrite Hin, Hout.
    + destruct (IH _ _ Hstep) as (flow' & Hflow' & Hin & Hout).
      exists flow'. split; [done|].
      rewrite filter_cons_False by (by rewrite Hon, Hgt).
      rewrite (filter_cons_True _ t) by (by rewrite Hon, Hgt).
      by rewrite Hin, Hout.
  - destruct (IH (tally zone m t) flow) as (flow' & Hflow' & Hin & Hout).
    { by rewrite tally_not_settledOn. }
    exists flow'. split; [done|].
    rewrite !filter_cons_False by (by rewrite Hon).
    by rewrite Hin, Hout.
Qed.
End DailyTotalsFacts.

(** X1. On a window of valid dates, in a zone that keeps days, and for
    transactions of valid dates: each entry of the returned fundsIn is the
    sum, from 0 and in the order of the listing, of
    [Math.abs(amount) / 100] over the transactions that are neither holds
    nor releases, are formatted as the label of that day and have an amount
    greater than 0; each entry of fundsOut is the same sum over those whose
    amount is not greater than 0. *)
Theorem daily_totals zone endDate data currency :
  keepsDay zone -> validWindow zone endDate -> Forall validCreated data ->
  exists r,
    balanceFundsFlow zone (Some endDate) data currency = Return r
    /\ forall i : nat, (i < 10)%nat ->
         let label := windowLabel (localDay zone endDate) i in
         let chart := balanceFundsFlowChartData r in
         balanceTransactionsDates chart !! i = Some label
         /\ balanceTransactionsFundsIn chart !! i
            = Some (sum (inMajorUnits
                           <$> filter (fun t => countsIn zone label t = true)
                                      data))
         /\ balanceTransactionsFundsOut chart !! i
            = Some (sum (inMajorUnits
                           <$> filter (fun t => countsOut zone label t = true)
                                      data)).
Proof.
  intros Hzone Hwindow Hdata.
  eexists. split; [by apply balanceFundsFlow_Return|].
  intros i Hi label chart. unfold chart, label.
  cbn [balanceFundsFlowChartData balanceTransactionsDates
         balanceTransactionsFundsIn balanceTransactionsFundsOut].
  unfold series. rewrite !series_lookup by done.
  split; [by apply dayLabels_reverse_lookup|].
  destruct (foldl_tally_totals zone data
              (zeroFundsFlow (dayLabels (localDay zone endDate)))
              (windowLabel (localDay zone endDate) i)
              {| date := windowLabel (localDay zone endDate) i;
                 fundsIn := zero; fundsOut := zero |})
    as (flow' & Hflow' & Hin & Hout).
  { rewrite zeroFundsFlow_lookup, decide_True; [done|].
    by apply windowLabel_elem_of. }
  rewrite Hflow'. cbn [from_option]. by rewrite Hin, Hout.
Qed.

(** ** The order of the listing *)

Section OrderFacts.
Variable zone : Zone.
Implicit Types (m : gmap string FundsFlowByDate).
Implicit Types (t a b : BalanceTransaction.t).

Lemma tally_lookup m t label :
  tally zone m t !! label
  = if settledOn zone label t then tallyFlow t <$> m !! label
    else m !! label.
Proof.
  destruct (settledOn zone label t) eqn:Hon.
  - destruct (m !! label) as [flow|] eqn:Hflow.
    + by rewrite (tally_settledOn zone m t label flow).
    + unfold settledOn in Hon. apply andb_prop in Hon as [_ Hlabel].
      apply String.eqb_eq in Hlabel. subst label.
      by rewrite tally_absent.
  - by apply tally_not_settledOn.
Qed.

Lemma tally_swap m a b :
  formattedDate zone a <> formattedDate zone b
  \/ gt (BalanceTransaction.amount a) (of_Z 0)
     <> gt (BalanceTransaction.amount b) (of_Z 0) ->
  tally zone (tally zone m a) b = tally zone (tally zone m b) a.
Proof.
  intros Hdiffer. apply map_eq. intros label. rewrite !tally_lookup.
  destruct (settledOn zone label a) eqn:Ha, (settledOn zone label b) eqn:Hb;
    try done.
  destruct (m !! label) as [flow|]; [|done]. cbn. f_equal.
  unfold tallyFlow.
  destruct (gt (BalanceTransaction.amount a) (of_Z 0)) eqn:Hgta,
           (gt (BalanceTransaction.amount b) (of_Z 0)) eqn:Hgtb;
    try done; exfalso; destruct Hdiffer as [Hlabel|Hgt]; try done;
    apply Hlabel; unfold settledOn in Ha, Hb;
    apply andb_prop in Ha as [_ Ha]; apply andb_prop in Hb as [_ Hb];
    apply String.eqb_eq in Ha, Hb; congruence.
Qed.
End OrderFacts.

(** X2. On a window of valid dates and among transactions of valid dates,
    two transactions next to each other in the listing can be swapped
    without changing the returned chart when they are formatted as
    different days, or when one has an amount greater than 0 and the other
    has not: only the order of the amounts added to one and the same series
    entry matters. *)
Theorem swap_leaves_chart zone endDate pre a b post currency :
  keepsDay zone -> validWindow zone endDate ->
  Forall validCreated (pre ++ a :: b :: post) ->
  formattedDate zone a <> formattedDate zone b
  \/ gt (BalanceTransaction.amount a) (of_Z 0)
     <> gt (BalanceTransaction.amount b) (of_Z 0) ->
  exists r r',
    balanceFundsFlow zone (Some endDate) (pre ++ a :: b :: post) currency
    = Return r
    /\ balanceFundsFlow zone (Some endDate) (pre ++ b :: a :: post) currency
       = Return r'
    /\ balanceFundsFlowChartData r = balanceFundsFlowChartData r'.
Proof.
  intros Hzone Hwindow Hdata Hdiffer.
  assert (Hdata' : Forall validCreated (pre ++ b :: a :: post)).
  { apply Forall_app in Hdata as [Hpre Hrest].
    apply Forall_app. split; [done|].
    apply Forall_cons in Hrest as [Ha Hrest].
    apply Forall_cons in Hrest as [Hb Hpost].
    by repeat apply Forall_cons_2. }
  destruct (balanceFundsFlow_series zone (Some endDate)
              (dayLabels (localDay zone endDate))
              (pre ++ a :: b :: post) (pre ++ b :: a :: post) currency)
    as (r & r' & Hr & Hr' & _ & _ & Hchart);
    [by apply datesArray_Return | done | done | |].
  { rewrite !foldl_app. cbn [foldl]. by rewrite tally_swap. }
  by exists r, r'.
Qed.

(** X3. On a window of valid dates and for transactions of valid dates, no
    entry of the returned fundsIn and fundsOut is negative, or a negative
    zero, whatever the amounts listed. *)
Theorem chart_never_negative zone endDate data currency :
  keepsDay zone -> validWindow zone endDate -> Forall validCreated data ->
  exists r,
    balanceFundsFlow zone (Some endDate) data currency = Return r
    /\ Forall nonneg
         (balanceTransactionsFundsIn (balanceFundsFlowChartData r))
    /\ Forall nonneg
         (balanceTransactionsFundsOut (balanceFundsFlowChartData r)).
Proof.
  intros Hzone Hwindow Hdata.
  eexists. split; [by apply balanceFundsFlow_Return|].
  cbn [balanceFundsFlowChartData balanceTransactionsFundsIn
         balanceTransactionsFundsOut].
  pose proof (foldl_tally_nonneg zone _ data
                (zeroFundsFlow_nonneg (dayLabels (localDay zone endDate))))
    as Hm.
  unfold series.
  split; apply Forall_reverse, Forall_fmap, Forall_forall; intros label _;
    cbn; destruct (foldl _ _ _ !! label) as [flow|] eqn:Hflow; cbn;
    try done; by destruct (Hm _ _ Hflow).
Qed.

(** ** The transactions asked for and the days charted *)

(** A time that passes the filter on [created] that [getBalanceTransactions]
    sends is a valid date, on one of the ten local days of the window, in
    a zone that keeps days, whose local day never goes back and changes on
    a whole second. *)
Lemma created_filter_in_window zone endDate startDate created :
  keepsDay zone -> dayMonotone zone -> wholeSeconds zone ->
  validTime endDate ->
  addDays zone (Some endDate) (- NUMBER_OF_DAYS + 1) = Some startDate ->
  startDate / 1000 <= created <= endDate / 1000 ->
  validTime (created * 1000)
  /\ localDay zone endDate - 9 <= localDay zone (created * 1000)
     <= localDay zone endDate.
Proof.
  intros Hzone Hmonotone Hseconds HendDate HstartDate Hcreated.
  assert (Hday : localDay zone startDate = localDay zone endDate - 9).
  { rewrite (addDays_localDay zone Hzone _ _ _ HstartDate).
    unfold NUMBER_OF_DAYS. lia. }
  assert (Hvalid : validTime startDate).
  { unfold addDays in HstartDate.
    change (- NUMBER_OF_DAYS + 1 =? 0) with false in HstartDate.
    apply TimeClip_Some in HstartDate as [Heq Hvalid]. by rewrite Heq. }
  unfold validTime, maxTime in *.
  assert (Hlo : startDate / 1000 * 1000 <= created * 1000) by lia.
  assert (Hhi : created * 1000 <= endDate)
    by (Z.div_mod_to_equations; lia).
  split; [Z.div_mod_to_equations; lia|]. split.
  - rewrite <- Hday, <- (Hseconds startDate). by apply Hmonotone.
  - by apply Hmonotone.
Qed.

Section ListingFacts.
Variable zone : Zone.
Context {Platform World : Type}.
Variable new_Date : @request World Date.
Variable balanceTransactions_list :
  Platform -> ListParams.balanceTransactions -> string ->
  @request World (list BalanceTransaction.t).

(** X4. In a zone that keeps days, whose local day never goes back and
    changes on a whole second, and on a window of valid dates: the listing
    is asked for from the date [addDays] gives for nine days before the
    clock, which is on the ninth local day before that of the clock, to the
    clock, in whole seconds; when Stripe lists only transactions that pass
    this filter on [created], [getBalanceTransactions] resolves, and every
    transaction listed is dated on one of the ten days charted: its
    formatted date is the entry of [balanceTransactionsDates] at the index
    of its local day, counted from nine days before that of the clock. *)
Theorem listed_transactions_are_charted
    stripeAccount currency world endDate data world1 world2 :
  keepsDay zone -> dayMonotone zone -> wholeSeconds zone ->
  validWindow zone endDate ->
  new_Date world = (Return (Some endDate), world1) ->
  exists startDate,
    addDays zone (Some endDate) (- NUMBER_OF_DAYS + 1) = Some startDate
    /\ localDay zone startDate = localDay zone endDate - 9
    /\ let params :=
         {| ListParams.created_gte := Some (startDate / 1000);
            ListParams.created_lte := Some (endDate / 1000);
            ListParams.limit := 100 |} in
       (balanceTransactions_list (platform stripeAccount) params
          (accountId stripeAccount) world1
        = (Return data, world2) ->
        (forall t, t ∈ data ->
           startDate / 1000 <= BalanceTransaction.created t
           <= endDate / 1000) ->
        exists r,
          getBalanceTransactions zone new_Date balanceTransactions_list
            stripeAccount currency world
          = (Return r, world2)
          /\ forall t, t ∈ data ->
               exists i : nat,
                 (i < 10)%nat
                 /\ Z.of_nat i
                    = localDay zone (BalanceTransaction.created t * 1000)
                      - localDay zone endDate + 9
                 /\ format zone
                      (TimeClip (BalanceTransaction.created t * 1000))
                      DATE_FORMAT
                    = Return (formattedDate zone t)
                 /\ balanceTransactionsDates (balanceFundsFlowChartData r)
                      !! i
                    = Some (formattedDate zone t)).
Proof.
  intros Hzone Hmonotone Hseconds Hwindow Hdate.
  destruct (proj2 Hwindow 9) as [startDate HstartDate'];
    [unfold NUMBER_OF_DAYS; lia|].
  assert (HstartDate : addDays zone (Some endDate) (- NUMBER_OF_DAYS + 1)
                       = Some startDate) by exact HstartDate'.
  clear HstartDate'.
  exists startDate. split; [done|].
  split.
  { rewrite (addDays_localDay zone Hzone _ _ _ HstartDate).
    unfold NUMBER_OF_DAYS. lia. }
  intros params Hlist Hfilter.
  assert (Hcreated : forall t, t ∈ data ->
            validTime (BalanceTransaction.created t * 1000)
            /\ localDay zone endDate - 9
               <= localDay zone (BalanceTransaction.created t * 1000)
               <= localDay zone endDate).
  { intros t Ht.
    apply (created_filter_in_window zone endDate startDate); try done.
    - apply Hwindow.
    - by apply Hfilter. }
  assert (Hdata : Forall validCreated data).
  { apply Forall_forall. intros t Ht. by apply Hcreated. }
  eexists. split.
  { unfold getBalanceTransactions, await, settle. rewrite Hdate.
    cbn zeta. rewrite HstartDate.
    change (getTimeInSeconds (Some startDate)) with (Some (startDate / 1000)).
    change (getTimeInSeconds (Some endDate)) with (Some (endDate / 1000)).
    fold params. rewrite Hlist.
    by rewrite (balanceFundsFlow_Return zone endDate Hzone Hwindow). }
  intros t Ht. destruct (Hcreated t Ht) as [Hvalid Hday].
  exists (Z.to_nat (localDay zone (BalanceTransaction.created t * 1000)
                    - localDay zone endDate + 9)).
  split; [lia|]. split; [lia|]. split; [by apply format_created|].
  cbn [balanceFundsFlowChartData balanceTransactionsDates].
  rewrite dayLabels_reverse_lookup by lia.
  f_equal. symmetry. apply formattedDate_windowLabel. lia.
Qed.
End ListingFacts.

(** X5. The time of the day at which the clock is read does not matter:
    on two dates of the same local day, whose windows are of valid dates,
    in a zone that keeps days, the aggregation of a listing returns the
    same value, or throws the same exception. *)
Theorem same_day_same_result zone endDate endDate' data currency :
  keepsDay zone -> validWindow zone endDate -> validWindow zone endDate' ->
  localDay zone endDate = localDay zone endDate' ->
  balanceFundsFlow zone (Some endDate) data currency
  = balanceFundsFlow zone (Some endDate') data currency.
Proof.
  intros Hzone Hwindow Hwindow' Hday.
  apply balanceFundsFlow_localDay; [|done].
  by apply datesArray_localDay.
Qed.


(** ** Dates out of range *)

(** X13. A transaction whose [created] is not a valid date, after
    transactions of valid dates, makes the callback throw a RangeError
    whatever its type, and the call is rejected with it: nothing is
    returned for the transactions before it. *)
Theorem invalid_date_rejects_call zone endDate pre t post currency :
  keepsDay zone -> validWindow zone endDate ->
  Forall validCreated pre -> ~ validCreated t ->
  (forall state,
     forEachTransaction zone state t = Throw "RangeError: Invalid time value")
  /\ tallied zone (Some endDate) (pre ++ t :: post)
     = Throw "RangeError: Invalid time value"
  /\ balanceFundsFlow zone (Some endDate) (pre ++ t :: post) currency
     = Throw "RangeError: Invalid time value".
Proof.
  intros Hzone Hwindow Hpre Hinvalid.
  pose proof (datesArray_Return zone endDate Hzone Hwindow) as Hdates.
  split; [intros state; by apply forEachTransaction_invalid|]. split.
  - unfold tallied. rewrite Hdates. cbn [bind].
    by apply Array_forEach_invalid.
  - by apply (balanceFundsFlow_invalid zone _ _ _ _ _ _ Hdates).
Qed.

(** ** The keys *)

Section KeyFacts.
Context {Platform : Type} `{EqDecision Platform}.
Variables Platform_UK Platform_EU Platform_US : Platform.
Variable toString : Platform -> string.

Lemma orNull_nonempty key : orNull key <> Some "".
Proof. by destruct key as [[|c value]|]. Qed.

Lemma orNull_Some key value :
  orNull key = Some value <-> key = Some value /\ value <> "".
Proof.
  destruct key as [[|c key]|]; cbn.
  - split; [done|]. by intros [[= <-] Hvalue].
  - split; [by intros [= <-] | by intros [[= <-] _]].
  - split; [done | by intros [? _]].
Qed.

(** X7. [getStripePublishableKey] accepts the platforms that
    [getStripeSecretKey] accepts and throws the same error on the others.
    On a platform they accept, each returns the value of its own variable
    of the environment, that of the first member the platform is equal
    to, and null when that variable is unset or empty; neither ever
    returns the empty string. *)
Theorem publishable_key_like_secret_key process_env platform :
  let secret :=
    getStripeSecretKey Platform_UK Platform_EU Platform_US toString
      process_env platform in
  let publishable :=
    getStripePublishableKey Platform_UK Platform_EU Platform_US toString
      process_env platform in
  let suffix :=
    if decide (platform = Platform_UK) then "UK"
    else if decide (platform = Platform_EU) then "EU" else "US" in
  (platform <> Platform_UK -> platform <> Platform_EU ->
   platform <> Platform_US ->
   secret = Throw ("Unsupported platform: " +:+ toString platform)
   /\ publishable = Throw ("Unsupported platform: " +:+ toString platform))
  /\ (platform = Platform_UK \/ platform = Platform_EU
      \/ platform = Platform_US ->
      exists secretKey publishableKey,
        secret = Return secretKey /\ publishable = Return publishableKey
        /\ (forall value,
              secretKey = Some value
              <-> process_env !! ("STRIPE_SECRET_KEY_" +:+ suffix)
                  = Some value
                  /\ value <> "")
        /\ (forall value,
              publishableKey = Some value
              <-> process_env
                    !! ("NEXT_PUBLIC_STRIPE_PUBLISHABLE_KEY_" +:+ suffix)
                  = Some value
                  /\ value <> "")).
Proof.
  cbn zeta. unfold getStripeSecretKey, getStripePublishableKey. split.
  - intros HUK HEU HUS. by rewrite !decide_False by done.
  - intros Hsupported.
    destruct (decide (platform = Platform_UK)).
    { do 2 eexists. do 2 (split; [reflexivity|]).
      split; intros value; apply orNull_Some. }
    destruct (decide (platform = Platform_EU)).
    { do 2 eexists. do 2 (split; [reflexivity|]).
      split; intros value; apply orNull_Some. }
    destruct (decide (platform = Platform_US)).
    { do 2 eexists. do 2 (split; [reflexivity|]).
      split; intros value; apply orNull_Some. }
    by destruct Hsupported as [?|[?|?]].
Qed.
End KeyFacts.

(** ** Funding instructions *)

Section FundingFacts.
Context {Platform : Type} `{EqDecision Platform}.
Variables Platform_UK Platform_EU Platform_US : Platform.
Variable toString : Platform -> string.
Variable process_env : gmap string string.
Context {World Response Json : Type}.
Variable fetch : string -> RequestInit -> @request World Response.
Variable Response_json : Response -> @request World Json.

Local Abbreviation createFundingInstructions :=
  (createFundingInstructions Platform_UK Platform_EU Platform_US toString
     process_env fetch Response_json).

(** X8. On a platform that is none of UK, EU and US,
    [createFundingInstructions] rejects with the error of
    [getStripeSecretKey] before anything is fetched: the world is left as
    it was, whatever the country and the currency. *)
Theorem createFundingInstructions_unsupported
    stripeAccount country currency world :
  platform stripeAccount <> Platform_UK ->
  platform stripeAccount <> Platform_EU ->
  platform stripeAccount <> Platform_US ->
  createFundingInstructions stripeAccount country currency world
  = (Throw ("Unsupported platform: " +:+ toString (platform stripeAccount)),
     world).
Proof.
  intros HUK HEU HUS.
  unfold createFundingInstructions, await, settle, getStripeSecretKey.
  by rewrite !decide_False by done.
Qed.

(** X9. On the platform UK, EU or US, [createFundingInstructions] does one
    POST to the funding instructions of Stripe and resolves to the JSON of
    the response. The body is the currency, the funding type bank_transfer
    and the bank transfer type of the country. The Authorization header is
    Bearer followed by the secret key of the platform; when the variable of
    that key is unset or empty the request is sent all the same, and the
    header reads "Bearer null". *)
Theorem createFundingInstructions_request
    stripeAccount country currency world :
  let suffix :=
    if decide (platform stripeAccount = Platform_UK) then "UK"
    else if decide (platform stripeAccount = Platform_EU) then "EU"
    else "US" in
  let authorization :=
    match process_env !! ("STRIPE_SECRET_KEY_" +:+ suffix) with
    | None => "Bearer null"
    | Some value =>
        if decide (value = "") then "Bearer null" else "Bearer " +:+ value
    end in
  let bankTransferType :=
    if decide (country = "GB") then "gb_bank_transfer"
    else if decide (country = "US") then "us_bank_transfer"
    else "eu_bank_transfer" in
  platform stripeAccount = Platform_UK
  \/ platform stripeAccount = Platform_EU
  \/ platform stripeAccount = Platform_US ->
  createFundingInstructions stripeAccount country currency world
  = await
      (fetch "https://api.stripe.com/v1/issuing/funding_instructions"
         {| method := "POST";
            headers :=
              [("Stripe-Account", accountId stripeAccount);
               ("content-type", "application/x-www-form-urlencoded");
               ("Authorization", authorization)];
            body :=
              [("currency", currency);
               ("funding_type", "bank_transfer");
               ("bank_transfer[type]", bankTransferType)] |})
      (fun response => await (Response_json response) resolve)
      world.
Proof.
  intros suffix authorization bankTransferType Hsupported.
  assert (Htype : getBankTransferType country = bankTransferType).
  { unfold getBankTransferType, bankTransferType.
    destruct (String.eqb_spec country "GB");
      [by rewrite decide_True | rewrite decide_False by done].
    destruct (String.eqb_spec country "US");
      [by rewrite decide_True | by rewrite decide_False]. }
  assert (Hkey : forall key,
            plusNullable "Bearer " (orNull key)
            = match key with
              | None => "Bearer null"
              | Some value =>
                  if decide (value = "") then "Bearer null"
                  else "Bearer " +:+ value
              end).
  { by intros [[|c value]|]. }
  unfold createFundingInstructions, await at 1, settle, getStripeSecretKey.
  rewrite Htype. unfold authorization, suffix.
  destruct (decide (platform stripeAccount = Platform_UK));
    [cbn [bind]; by rewrite Hkey|].
  destruct (decide (platform stripeAccount = Platform_EU));
    [cbn [bind]; by rewrite Hkey|].
  destruct (decide (platform stripeAccount = Platform_US));
    [cbn [bind]; by rewrite Hkey|].
  by destruct Hsupported as [?|[?|?]].
Qed.
End FundingFacts.

(** ** The registration page *)

(** X10. Whatever the platforms enabled, the country field offers each
    country once, the initial country among them, and an item is disabled
    exactly when the platform of the bank transfer type of its country,
    as [getBankTransferType] has it, is not enabled: US for
    us_bank_transfer, UK for gb_bank_transfer and EU for
    eu_bank_transfer. *)
Theorem countryMenu_gates enableUS enableUK enableEU :
  let menu := Register.countryMenu enableUS enableUK enableEU in
  NoDup (Register.value <$> menu)
  /\ Register.initialCountry ∈ (Register.value <$> menu)
  /\ forall item, item ∈ menu ->
       let bankTransferType := getBankTransferType (Register.value item) in
       Register.disabled item
       = negb (if String.eqb bankTransferType "us_bank_transfer"
               then enableUS
               else if String.eqb bankTransferType "gb_bank_transfer"
                    then enableUK
                    else enableEU).
Proof.
  cbn zeta. split; [|split].
  - apply (bool_decide_unpack _). by vm_compute.
  - apply list_elem_of_here.
  - intros item Hitem. unfold Register.countryMenu in Hitem.
    repeat (apply elem_of_cons in Hitem as [->|Hitem]; [reflexivity|]).
    by apply elem_of_nil in Hitem.
Qed.

(** ** Sums of integers *)

Section ExactIntegers.

Lemma shiftPos_Z n k : 0 <= k -> Z.pos (shiftPos n k) = Z.pos n * 2 ^ k.
Proof.
  intros Hk. unfold shiftPos. rewrite Z2Pos.id; [done|].
  pose proof (Z.pow_pos_nonneg 2 k). lia.
Qed.

Lemma shiftPos_0 n : shiftPos n 0 = n.
Proof. unfold shiftPos. rewrite Z.pow_0_r, Z.mul_1_r. done. Qed.

Lemma shiftPos_add n a b :
  0 <= a -> 0 <= b -> shiftPos (shiftPos n a) b = shiftPos n (a + b).
Proof.
  intros Ha Hb. apply Pos2Z.inj. rewrite !shiftPos_Z by lia.
  rewrite Z.pow_add_r by lia. lia.
Qed.

Lemma iter_xO n p : Pos.iter xO n p = shiftPos n (Z.pos p).
Proof.
  induction p as [|p IH] using Pos.peano_ind.
  - cbn. apply Pos2Z.inj. rewrite shiftPos_Z by lia. lia.
  - rewrite Pos.iter_succ, IH, Pos2Z.inj_succ.
    apply Pos2Z.inj.
    change (Z.pos (shiftPos n (Z.pos p))~0)
      with (2 * Z.pos (shiftPos n (Z.pos p))).
    rewrite !shiftPos_Z by lia. rewrite Z.pow_succ_r by lia. lia.
Qed.

Lemma digits2_pos_xO_iter n p :
  Z.pos (digits2_pos (Pos.iter xO n p)) = Z.pos (digits2_pos n) + Z.pos p.
Proof.
  induction p as [|p IH] using Pos.peano_ind.
  - cbn. lia.
  - rewrite Pos.iter_succ. cbn [digits2_pos]. lia.
Qed.

Lemma digits2_pos_shiftPos n k :
  0 <= k -> Z.pos (digits2_pos (shiftPos n k)) = Z.pos (digits2_pos n) + k.
Proof.
  intros Hk. destruct k as [|p|p]; [|  |lia].
  - rewrite shiftPos_0. lia.
  - rewrite <- iter_xO. apply digits2_pos_xO_iter.
Qed.

Lemma digits2_pos_bounds n :
  2 ^ (Z.pos (digits2_pos n) - 1) <= Z.pos n < 2 ^ Z.pos (digits2_pos n).
Proof.
  assert (Hstep : forall d x, 0 < d ->
            2 ^ (d - 1) <= x < 2 ^ d ->
            (2 ^ (Z.succ d - 1) <= 2 * x < 2 ^ Z.succ d)
            /\ (2 ^ (Z.succ d - 1) <= 2 * x + 1 < 2 ^ Z.succ d)).
  { intros d x Hd Hx.
    replace (Z.succ d - 1) with (Z.succ (d - 1)) by lia.
    rewrite !Z.pow_succ_r by lia. lia. }
  induction n as [n IH|n IH|]; cbn [digits2_pos].
  - rewrite Pos2Z.inj_succ. change (Z.pos n~1) with (2 * Z.pos n + 1).
    by apply Hstep.
  - rewrite Pos2Z.inj_succ. change (Z.pos n~0) with (2 * Z.pos n).
    by apply Hstep.
  - cbn. lia.
Qed.

Lemma digits2_pos_le n b :
  0 <= b -> Z.pos n < 2 ^ b -> Z.pos (digits2_pos n) <= b.
Proof.
  intros Hb Hn. pose proof (digits2_pos_bounds n) as [Hlow _].
  destruct (Z.le_gt_cases (Z.pos (digits2_pos n)) b) as [|Hgt]; [done|].
  exfalso.
  assert (2 ^ b <= 2 ^ (Z.pos (digits2_pos n) - 1))
    by (apply Z.pow_le_mono_r; lia).
  lia.
Qed.

Lemma iter_pos_shr_1 p n :
  SpecFloat.iter_pos shr_1 p
    {| shr_m := Z.pos (Pos.iter xO n p); shr_r := false; shr_s := false |}
  = {| shr_m := Z.pos n; shr_r := false; shr_s := false |}.
Proof.
  revert n. induction p as [p IH|p IH|]; intros n; cbn [SpecFloat.iter_pos Pos.iter].
  - cbn [shr_1 orb]. by rewrite !IH.
  - by rewrite !IH.
  - done.
Qed.

Lemma fexp_digits d : 1 <= d -> fexp prec emax d = d - 53.
Proof. intros Hd. unfold fexp, SpecFloat.emin, prec, emax. lia. Qed.

(** Rounding a mantissa that already has its exponent. *)
Lemma binary_round_aux_fits s m e :
  fexp prec emax (Z.pos (digits2_pos m) + e) = e -> e <= 971 ->
  binary_round_aux prec emax s (Z.pos m) e loc_Exact = S754_finite s m e.
Proof.
  intros Hfexp He. unfold binary_round_aux, shr_fexp.
  cbn [Zdigits2 shr_record_of_loc]. rewrite Hfexp, Z.sub_diag.
  cbn [shr shr_m loc_of_shr_record round_nearest_even Zdigits2
         shr_record_of_loc].
  rewrite Hfexp, Z.sub_diag. cbn [shr shr_m].
  unfold emax, prec. by rewrite (proj2 (Z.leb_le e (1024 - 53))) by lia.
Qed.

(** Rounding a mantissa with [q] trailing zeros too many. *)
Lemma binary_round_aux_shifts s m q e :
  fexp prec emax (Z.pos (digits2_pos (Pos.iter xO m q)) + e) = e + Z.pos q ->
  e + Z.pos q <= 971 ->
  binary_round_aux prec emax s (Z.pos (Pos.iter xO m q)) e loc_Exact
  = S754_finite s m (e + Z.pos q).
Proof.
  intros Hfexp He. unfold binary_round_aux, shr_fexp.
  cbn [Zdigits2 shr_record_of_loc]. rewrite Hfexp.
  replace (e + Z.pos q - e) with (Z.pos q) by lia.
  cbn [shr]. rewrite iter_pos_shr_1.
  cbn [shr_m loc_of_shr_record round_nearest_even Zdigits2 shr_record_of_loc].
  rewrite digits2_pos_xO_iter in Hfexp.
  replace (Z.pos (digits2_pos m) + (e + Z.pos q))
    with (Z.pos (digits2_pos m) + Z.pos q + e) by lia.
  rewrite Hfexp, Z.sub_diag. cbn [shr shr_m].
  unfold emax, prec.
  by rewrite (proj2 (Z.leb_le (e + Z.pos q) (1024 - 53))) by lia.
Qed.

(** A number of at most 53 digits, however many zeros follow it, rounds to
    itself, on 53 digits. *)
Lemma binary_round_exact s n k :
  0 <= k -> Z.pos (digits2_pos n) <= 53 ->
  binary_round prec emax s (shiftPos n k) (- k)
  = S754_finite s (shiftPos n (53 - Z.pos (digits2_pos n)))
      (Z.pos (digits2_pos n) - 53).
Proof.
  intros Hk Hd. set (d := Z.pos (digits2_pos n)) in *.
  assert (Hd1 : 1 <= d) by (unfold d; lia).
  unfold binary_round.
  rewrite digits2_pos_shiftPos by done. fold d.
  replace (d + k + - k) with d by lia. rewrite fexp_digits by done.
  unfold shl_align. replace (d - 53 - - k) with (d - 53 + k) by lia.
  destruct (d - 53 + k) as [|q|q] eqn:Hq.
  - replace (53 - d) with k by lia. replace (d - 53) with (- k) by lia.
    apply binary_round_aux_fits; [|lia].
    rewrite digits2_pos_shiftPos by done. fold d.
    replace (d + k + - k) with d by lia. rewrite fexp_digits by done. lia.
  - replace (shiftPos n k) with (Pos.iter xO (shiftPos n (53 - d)) q).
    + replace (d - 53) with (- k + Z.pos q) by lia.
      apply binary_round_aux_shifts; [|lia].
      rewrite digits2_pos_xO_iter, digits2_pos_shiftPos by lia. fold d.
      replace (d + (53 - d) + Z.pos q + - k) with d by lia.
      rewrite fexp_digits by done. lia.
    + rewrite iter_xO, shiftPos_add by lia. f_equal. lia.
  - rewrite iter_xO, shiftPos_add by lia.
    replace (k + Z.pos q) with (53 - d) by lia.
    apply binary_round_aux_fits; [|lia].
    rewrite digits2_pos_shiftPos by lia. fold d.
    replace (d + (53 - d) + (d - 53)) with d by lia.
    by rewrite fexp_digits.
Qed.

Lemma shl_align_fst m e e' :
  e' <= e -> (shl_align m e e').1 = shiftPos m (e - e').
Proof.
  intros He. unfold shl_align. destruct (e' - e) as [|q|q] eqn:Hq.
  - replace (e - e') with 0 by lia. by rewrite shiftPos_0.
  - lia.
  - cbn [fst]. rewrite iter_xO. f_equal. lia.
Qed.

Lemma of_Z_pos n :
  Z.pos (digits2_pos n) <= 53 ->
  of_Z (Z.pos n)
  = S754_finite false (shiftPos n (53 - Z.pos (digits2_pos n)))
      (Z.pos (digits2_pos n) - 53).
Proof.
  intros Hd. unfold of_Z, binary_normalize.
  rewrite <- (shiftPos_0 n) at 1. change 0 with (- 0) at 2.
  by apply binary_round_exact.
Qed.

Lemma add_of_Z_pos a b :
  Z.pos a + Z.pos b < 2 ^ 53 ->
  add (of_Z (Z.pos a)) (of_Z (Z.pos b)) = of_Z (Z.pos a + Z.pos b).
Proof.
  intros Hsum.
  assert (Ha : Z.pos (digits2_pos a) <= 53) by (apply digits2_pos_le; lia).
  assert (Hb : Z.pos (digits2_pos b) <= 53) by (apply digits2_pos_le; lia).
  assert (Hab : Z.pos (digits2_pos (a + b)) <= 53)
    by (apply digits2_pos_le; lia).
  change (Z.pos a + Z.pos b) with (Z.pos (a + b)).
  rewrite !of_Z_pos by done.
  set (da := Z.pos (digits2_pos a)) in *.
  set (db := Z.pos (digits2_pos b)) in *.
  unfold add, SFadd, cond_Zopp.
  set (ez := Z.min (da - 53) (db - 53)).
  rewrite !shl_align_fst, !shiftPos_add by lia.
  replace (53 - da + (da - 53 - ez)) with (- ez) by lia.
  replace (53 - db + (db - 53 - ez)) with (- ez) by lia.
  assert (Hez : 0 <= - ez) by lia.
  replace (Z.pos (shiftPos a (- ez)) + Z.pos (shiftPos b (- ez)))
    with (Z.pos (shiftPos (a + b) (- ez))).
  - unfold binary_normalize. replace ez with (- - ez) at 2 by lia.
    by apply binary_round_exact.
  - rewrite !shiftPos_Z by done. lia.
Qed.

Lemma add_of_Z a b :
  0 <= a -> 0 <= b -> a + b < 2 ^ 53 ->
  add (of_Z a) (of_Z b) = of_Z (a + b).
Proof.
  intros Ha Hb Hsum. destruct a as [|a|a], b as [|b|b]; try lia.
  - done.
  - rewrite Z.add_0_l.
    rewrite of_Z_pos by (apply digits2_pos_le; lia). done.
  - rewrite Z.add_0_r.
    rewrite of_Z_pos by (apply digits2_pos_le; lia). done.
  - by apply add_of_Z_pos.
Qed.

Lemma totalOf_cons amount amounts :
  totalOf (amount :: amounts) = amount + totalOf amounts.
Proof. done. Qed.

Lemma totalOf_nonneg amounts :
  Forall (fun amount => 0 <= amount) amounts -> 0 <= totalOf amounts.
Proof.
  induction 1 as [|amount amounts Hamount _ IH]; [done|].
  rewrite totalOf_cons. lia.
Qed.

(** The sum of non-negative integers whose total is below [2 ^ 53] is
    exact. *)
Lemma foldl_add_of_Z amounts total :
  0 <= total -> Forall (fun amount => 0 <= amount) amounts ->
  total + totalOf amounts < 2 ^ 53 ->
  foldl add (of_Z total) (of_Z <$> amounts) = of_Z (total + totalOf amounts).
Proof.
  revert total. induction amounts as [|amount amounts IH];
    intros total Htotal Hamounts Hbound.
  { cbn. by rewrite Z.add_0_r. }
  apply Forall_cons in Hamounts as [Hamount Hamounts].
  pose proof (totalOf_nonneg amounts Hamounts).
  rewrite totalOf_cons in *. rewrite fmap_cons. cbn [foldl].
  rewrite add_of_Z by lia.
  rewrite IH by (done || lia). f_equal. lia.
Qed.

End ExactIntegers.

(** ** The spend, in whole minor units *)

Section SpendFacts.
Context {Platform Card World : Type}.
Variable issuing_authorizations_list :
  Platform -> ListParams.authorizations -> string ->
  @request World (list Authorization.t).
Variable issuing_cards_retrieve :
  Platform -> string -> list string -> string -> @request World Card.

(** X11. When the amounts of the approved authorizations listed are
    non-negative integers whose total is below [2 ^ 53], [current_spend]
    is this total exactly: no addition rounds. It is 0 when none is
    approved. *)
Theorem current_spend_exact
    stripeAccount cardId world data card world1 world2 amounts :
  issuing_authorizations_list (platform stripeAccount)
    {| ListParams.card := cardId; ListParams.authorizations_limit := 10 |}
    (accountId stripeAccount) world
  = (Return data, world1) ->
  issuing_cards_retrieve (platform stripeAccount) cardId ["cardholder"]
    (accountId stripeAccount) world1
  = (Return card, world2) ->
  Authorization.amount <$> approvedOnly data = of_Z <$> amounts ->
  Forall (fun amount => 0 <= amount) amounts ->
  totalOf amounts < 2 ^ 53 ->
  getCardDetails issuing_authorizations_list issuing_cards_retrieve
    stripeAccount cardId world
  = (Return {| card_authorizations := data;
               current_spend := of_Z (totalOf amounts);
               card_details := card |},
     world2).
Proof.
  intros Hlist Hcard Hamounts Hnonneg Htotal.
  unfold getCardDetails, await, resolve. rewrite Hlist, Hcard.
  rewrite foldl_forEachAuthorization, Hamounts.
  change zero with (of_Z 0). by rewrite foldl_add_of_Z.
Qed.
End SpendFacts.

(** ** The transactions returned *)

Lemma foldl_tally_settledOnly zone m data :
  foldl (tally zone) m (settledOnly data) = foldl (tally zone) m data.
Proof.
  unfold settledOnly.
  revert m. induction data as [|t data IH]; intros m; [done|].
  destruct (isHoldOrRelease (BalanceTransaction.type t)) eqn:Htype.
  - rewrite filter_cons_False by congruence. cbn [foldl].
    by rewrite IH, tally_hold.
  - rewrite filter_cons_True by done. cbn [foldl]. by rewrite IH.
Qed.

Lemma settledOnly_valid data :
  Forall validCreated data -> Forall validCreated (settledOnly data).
Proof.
  intros Hdata. apply Forall_forall. unfold settledOnly.
  intros t [_ Ht]%list_elem_of_filter.
  by apply (proj1 (Forall_forall _ _) Hdata).
Qed.

(** X12. On a window of valid dates and for transactions of valid dates,
    the aggregation returns for the transactions it returns what it
    returned for the listing: holds and releases, however many and
    wherever they are in the listing, change nothing of the result, and
    aggregating the returned [balanceTransactions] again gives the same
    chart and the same transactions. *)
Theorem returned_transactions_suffice zone endDate data currency :
  keepsDay zone -> validWindow zone endDate -> Forall validCreated data ->
  exists r,
    balanceFundsFlow zone (Some endDate) data currency = Return r
    /\ balanceTransactions r = settledOnly data
    /\ balanceFundsFlow zone (Some endDate) (balanceTransactions r) currency
       = Return r.
Proof.
  intros Hzone Hwindow Hdata.
  eexists. split; [by apply balanceFundsFlow_Return|].
  cbn [balanceTransactions]. split; [done|].
  rewrite balanceFundsFlow_Return by (done || by apply settledOnly_valid).
  rewrite foldl_tally_settledOnly. unfold settledOnly.
  by rewrite list_filter_filter_l.
Qed.

(** ** The further properties on the sample data *)

Lemma daily_totals_witness :
  keepsDay Sample.utc /\ validWindow Sample.utc Sample.endDate
  /\ Forall validCreated
       [Sample.charge; Sample.hold; Sample.payout; Sample.charge]
  /\ exists r,
      balanceFundsFlow Sample.utc (Some Sample.endDate)
        [Sample.charge; Sample.hold; Sample.payout; Sample.charge] "usd"
      = Return r
      /\ balanceTransactionsFundsIn (balanceFundsFlowChartData r) !! 9%nat
         = Some (add (add zero (div (of_Z 21) (of_Z 2)))
                     (div (of_Z 21) (of_Z 2)))
      /\ balanceTransactionsFundsOut (balanceFundsFlowChartData r) !! 0%nat
         = Some (of_Z 5).
Proof.
  assert (Hdata : Forall validCreated
                    [Sample.charge; Sample.hold; Sample.payout; Sample.charge])
    by valid_dates.
  split; [apply fixedOffset_keepsDay|]. split; [apply utc_validWindow|].
  split; [exact Hdata|].
  destruct (daily_totals Sample.utc Sample.endDate
              [Sample.charge; Sample.hold; Sample.payout; Sample.charge]
              "usd" (fixedOffset_keepsDay 0) utc_validWindow Hdata)
    as (r & Hr & Hdays).
  exists r. split; [exact Hr|]. split.
  - exact (proj1 (proj2 (Hdays 9%nat ltac:(lia)))).
  - exact (proj2 (proj2 (Hdays 0%nat ltac:(lia)))).
Defined.

Lemma swap_leaves_chart_witness :
  keepsDay Sample.utc /\ validWindow Sample.utc Sample.endDate
  /\ Forall validCreated
       ([Sample.hold] ++ Sample.charge :: Sample.payout :: [])
  /\ formattedDate Sample.utc Sample.charge
     <> formattedDate Sample.utc Sample.payout
  /\ exists r r',
      balanceFundsFlow Sample.utc (Some Sample.endDate)
        ([Sample.hold] ++ Sample.charge :: Sample.payout :: []) "usd"
      = Return r
      /\ balanceFundsFlow Sample.utc (Some Sample.endDate)
           ([Sample.hold] ++ Sample.payout :: Sample.charge :: []) "usd"
         = Return r'
      /\ balanceFundsFlowChartData r = balanceFundsFlowChartData r'.
Proof.
  assert (Hdata : Forall validCreated
                    ([Sample.hold] ++ Sample.charge :: Sample.payout :: []))
    by valid_dates.
  assert (Hdays : formattedDate Sample.utc Sample.charge
                  <> formattedDate Sample.utc Sample.payout)
    by (vm_compute; discriminate).
  split; [apply fixedOffset_keepsDay|]. split; [apply utc_validWindow|].
  split; [exact Hdata|]. split; [exact Hdays|].
  exact (swap_leaves_chart Sample.utc Sample.endDate [Sample.hold]
           Sample.charge Sample.payout [] "usd" (fixedOffset_keepsDay 0)
           utc_validWindow Hdata (or_introl Hdays)).
Defined.

Lemma chart_never_negative_witness :
  keepsDay Sample.utc /\ validWindow Sample.utc Sample.endDate
  /\ Forall validCreated [Sample.charge; Sample.hold; Sample.payout]
  /\ exists r,
      balanceFundsFlow Sample.utc (Some Sample.endDate)
        [Sample.charge; Sample.hold; Sample.payout] "usd"
      = Return r
      /\ Forall nonneg
           (balanceTransactionsFundsOut (balanceFundsFlowChartData r)).
Proof.
  assert (Hdata : Forall validCreated
                    [Sample.charge; Sample.hold; Sample.payout])
    by valid_dates.
  split; [apply fixedOffset_keepsDay|]. split; [apply utc_validWindow|].
  split; [exact Hdata|].
  destruct (chart_never_negative Sample.utc Sample.endDate
              [Sample.charge; Sample.hold; Sample.payout] "usd"
              (fixedOffset_keepsDay 0) utc_validWindow Hdata)
    as (r & Hr & _ & Hout).
  exists r. split; [exact Hr | exact Hout].
Defined.

(** In New York, with the start of daylight saving time in the window. *)
Lemma listed_transactions_are_charted_witness :
  keepsDay Sample.newYork /\ dayMonotone Sample.newYork
  /\ wholeSeconds Sample.newYork
  /\ validWindow Sample.newYork Sample.noonInMarch
  /\ exists r,
      getBalanceTransactions Sample.newYork Sample.clockInMarch
        Sample.listInMarch (Sample.account "acct_1") "usd" []
      = (Return r,
         [{| ListParams.created_gte := Some 1709744400;
             ListParams.created_lte := Some 1710518400;
             ListParams.limit := 100 |}])
      /\ balanceTransactionsDates (balanceFundsFlowChartData r) !! 3%nat
         = Some "Mar 09"
      /\ formattedDate Sample.newYork Sample.chargeBeforeDaylightSaving
         = "Mar 09".
Proof.
  split; [apply newYork_keepsDay|]. split; [apply newYork_dayMonotone|].
  split; [apply newYork_wholeSeconds|]. split; [apply newYork_validWindow|].
  destruct (listed_transactions_are_charted Sample.newYork
              Sample.clockInMarch Sample.listInMarch
              (Sample.account "acct_1") "usd" [] Sample.noonInMarch
              [Sample.chargeBeforeDaylightSaving] []
              [{| ListParams.created_gte := Some 1709744400;
                  ListParams.created_lte := Some 1710518400;
                  ListParams.limit := 100 |}]
              newYork_keepsDay newYork_dayMonotone newYork_wholeSeconds
              newYork_validWindow eq_refl)
    as (startDate & HstartDate & _ & Hcharted).
  injection HstartDate as <-.
  destruct Hcharted as (r & Hr & Hdays).
  - reflexivity.
  - intros t Ht. apply list_elem_of_singleton in Ht. subst t.
    vm_compute. split; discriminate.
  - exists r. split; [exact Hr|].
    destruct (Hdays Sample.chargeBeforeDaylightSaving)
      as (i & Hi & Hindex & _ & Hdate); [apply list_elem_of_here|].
    assert (Hthree : localDay Sample.newYork
                       (BalanceTransaction.created
                          Sample.chargeBeforeDaylightSaving * 1000)
                     - localDay Sample.newYork Sample.noonInMarch + 9 = 3)
      by reflexivity.
    rewrite Hthree in Hindex.
    assert (i = 3%nat) as -> by lia.
    split; [exact Hdate | reflexivity].
Defined.

Lemma same_day_same_result_witness :
  keepsDay Sample.utc /\ validWindow Sample.utc Sample.endDate
  /\ validWindow Sample.utc (Sample.endDate - 3600000)
  /\ localDay Sample.utc Sample.endDate
     = localDay Sample.utc (Sample.endDate - 3600000)
  /\ balanceFundsFlow Sample.utc (Some Sample.endDate)
       [Sample.charge; Sample.payout] "usd"
     = balanceFundsFlow Sample.utc (Some (Sample.endDate - 3600000))
         [Sample.charge; Sample.payout] "usd".
Proof.
  assert (Hwindow : validWindow Sample.utc (Sample.endDate - 3600000)).
  { apply fixedOffset_validWindow.
    unfold maxTime, msPerDay, Sample.endDate. lia. }
  split; [apply fixedOffset_keepsDay|]. split; [apply utc_validWindow|].
  split; [exact Hwindow|]. split; [reflexivity|].
  exact (same_day_same_result Sample.utc Sample.endDate
           (Sample.endDate - 3600000) [Sample.charge; Sample.payout] "usd"
           (fixedOffset_keepsDay 0) utc_validWindow Hwindow eq_refl).
Defined.

(** The window of the first dates there are: one hour east of Greenwich,
    of two clocks read on the same local day, nine days and an hour after
    the first valid date, the earlier has an invalid first date in its
    window, and the call is rejected. *)
Example same_day_at_the_first_dates :
  let zone := fixedOffset 3600000 in
  let endDate := - maxTime + 9 * msPerDay in
  localDay zone endDate = localDay zone (endDate - 1800000)
  /\ balanceFundsFlow zone (Some endDate) [] "usd"
     = Return
         {| balanceTransactions := [];
            balanceFundsFlowChartData :=
              {| currency := "usd";
                 balanceTransactionsDates :=
                   ["Apr 20"; "Apr 21"; "Apr 22"; "Apr 23"; "Apr 24";
                    "Apr 25"; "Apr 26"; "Apr 27"; "Apr 28"; "Apr 29"];
                 balanceTransactionsFundsIn := replicate 10 zero;
                 balanceTransactionsFundsOut := replicate 10 zero |} |}
  /\ balanceFundsFlow zone (Some (endDate - 1800000)) [] "usd"
     = Throw "RangeError: Invalid time value".
Proof. by vm_compute. Qed.


Lemma returned_transactions_suffice_witness :
  keepsDay Sample.utc /\ validWindow Sample.utc Sample.endDate
  /\ Forall validCreated [Sample.charge; Sample.hold; Sample.payout]
  /\ exists r,
      balanceFundsFlow Sample.utc (Some Sample.endDate)
        [Sample.charge; Sample.hold; Sample.payout] "usd"
      = Return r
      /\ balanceFundsFlow Sample.utc (Some Sample.endDate)
           (balanceTransactions r) "usd"
         = Return r.
Proof.
  assert (Hdata : Forall validCreated
                    [Sample.charge; Sample.hold; Sample.payout])
    by valid_dates.
  split; [apply fixedOffset_keepsDay|]. split; [apply utc_validWindow|].
  split; [exact Hdata|].
  destruct (returned_transactions_suffice Sample.utc Sample.endDate
              [Sample.charge; Sample.hold; Sample.payout] "usd"
              (fixedOffset_keepsDay 0) utc_validWindow Hdata)
    as (r & Hr & _ & Hagain).
  exists r. split; [exact Hr | exact Hagain].
Defined.

Lemma invalid_date_rejects_call_witness :
  keepsDay Sample.utc /\ validWindow Sample.utc Sample.endDate
  /\ Forall validCreated [Sample.charge]
  /\ ~ validCreated Sample.holdOutOfRange
  /\ balanceFundsFlow Sample.utc (Some Sample.endDate)
       ([Sample.charge] ++ Sample.holdOutOfRange :: [Sample.payout]) "usd"
     = Throw "RangeError: Invalid time value".
Proof.
  assert (Hdata : Forall validCreated [Sample.charge]) by valid_dates.
  assert (Hinvalid : ~ validCreated Sample.holdOutOfRange)
    by (unfold validCreated, validTime, maxTime; cbn; lia).
  split; [apply fixedOffset_keepsDay|]. split; [apply utc_validWindow|].
  split; [exact Hdata|]. split; [exact Hinvalid|].
  exact (proj2 (proj2 (invalid_date_rejects_call Sample.utc Sample.endDate
                         [Sample.charge] Sample.holdOutOfRange
                         [Sample.payout] "usd" (fixedOffset_keepsDay 0)
                         utc_validWindow Hdata Hinvalid))).
Defined.

Lemma publishable_key_like_secret_key_witness :
  getStripePublishableKey "uk" "eu" "us" id Fixture.process_env "jp"
  = Throw "Unsupported platform: jp"
  /\ exists secretKey publishableKey,
      getStripeSecretKey "uk" "eu" "us" id Fixture.process_env "us"
      = Return secretKey
      /\ getStripePublishableKey "uk" "eu" "us" id Fixture.process_env "us"
         = Return publishableKey
      /\ (publishableKey = Some "pk_test_us"
          <-> Fixture.process_env !! "NEXT_PUBLIC_STRIPE_PUBLISHABLE_KEY_US"
              = Some "pk_test_us"
              /\ "pk_test_us" <> "").
Proof.
  assert (Hjp : "jp" <> "uk" /\ "jp" <> "eu" /\ "jp" <> "us")
    by (repeat split; discriminate).
  destruct Hjp as (Hjp1 & Hjp2 & Hjp3).
  split.
  - exact (proj2 (proj1 (publishable_key_like_secret_key "uk" "eu" "us" id
                           Fixture.process_env "jp") Hjp1 Hjp2 Hjp3)).
  - destruct (proj2 (publishable_key_like_secret_key "uk" "eu" "us" id
                       Fixture.process_env "us")
                (or_intror (or_intror eq_refl)))
      as (secretKey & publishableKey & Hsecret & Hpublishable & _ & Hvalue).
    exists secretKey, publishableKey.
    split; [exact Hsecret|]. split; [exact Hpublishable|].
    exact (Hvalue "pk_test_us").
Defined.

Lemma createFundingInstructions_unsupported_witness :
  createFundingInstructions "uk" "eu" "us" id Fixture.process_env
    Fixture.fetch Fixture.json (Fixture.account "acct_1" "jp") "DE" "eur" []
  = (Throw "Unsupported platform: jp", []).
Proof.
  assert (Hjp : "jp" <> "uk" /\ "jp" <> "eu" /\ "jp" <> "us")
    by (repeat split; discriminate).
  destruct Hjp as (Hjp1 & Hjp2 & Hjp3).
  exact (createFundingInstructions_unsupported "uk" "eu" "us" id
           Fixture.process_env Fixture.fetch Fixture.json
           (Fixture.account "acct_1" "jp") "DE" "eur" [] Hjp1 Hjp2 Hjp3).
Defined.

Lemma createFundingInstructions_request_witness :
  createFundingInstructions "uk" "eu" "us" id Fixture.process_env
    Fixture.fetch Fixture.json (Fixture.account "acct_1" "eu") "DE" "eur" []
  = (Return "{}",
     [("https://api.stripe.com/v1/issuing/funding_instructions",
       {| method := "POST";
          headers :=
            [("Stripe-Account", "acct_1");
             ("content-type", "application/x-www-form-urlencoded");
             ("Authorization", "Bearer null")];
          body :=
            [("currency", "eur");
             ("funding_type", "bank_transfer");
             ("bank_transfer[type]", "eu_bank_transfer")] |})]).
Proof.
  exact (createFundingInstructions_request "uk" "eu" "us" id
           Fixture.process_env Fixture.fetch Fixture.json
           (Fixture.account "acct_1" "eu") "DE" "eur" []
           (or_intror (or_introl eq_refl))).
Defined.

Lemma countryMenu_gates_witness :
  let item :=
    {| Register.value := "GB"; Register.disabled := true;
       Register.children := "United Kingdom" |} in
  item ∈ Register.countryMenu true false true
  /\ Register.disabled item = negb false.
Proof.
  intros item.
  assert (Hin : item ∈ Register.countryMenu true false true).
  { unfold Register.countryMenu. do 21 apply list_elem_of_further.
    apply list_elem_of_here. }
  split; [exact Hin|].
  exact (proj2 (proj2 (countryMenu_gates true false true)) item Hin).
Defined.

Lemma current_spend_exact_witness :
  getCardDetails Sample.listAuthorizations Sample.retrieveCard
    (Sample.account "acct_1") "ic_1" 0%nat
  = (Return
       {| card_authorizations :=
            [Sample.approved 1200; Sample.declined 5000; Sample.approved 300];
          current_spend := of_Z (totalOf [1200; 300]);
          card_details := "ic_1" |},
     2%nat).
Proof.
  apply (current_spend_exact Sample.listAuthorizations Sample.retrieveCard
           (Sample.account "acct_1") "ic_1" 0%nat
           [Sample.approved 1200; Sample.declined 5000; Sample.approved 300]
           "ic_1" 1%nat 2%nat [1200; 300] eq_refl eq_refl eq_refl).
  - repeat constructor; discriminate.
  - reflexivity.
Defined.

